(** * Face stylizer dataset loader

    A shallow embedding of
    [mediapipe/model_maker/python/vision/face_stylizer/dataset.py]:
    the helper [_preprocess_face_dataset] and the class method
    [Dataset.from_folder].

    The file is glue code around calls into the operating system, MediaPipe
    and TensorFlow.  Those calls are the fields of a [World], each with the
    way it fails on the inputs the program hands it; the Python that sits
    between them (string tests, path splitting, sorting, enumeration, the
    dictionary, the list comprehension, the [raise] statements, the
    dictionary lookup that can raise [KeyError] and the method call on
    [None] that raises [AttributeError]) is written out. *)

From stdpp Require Import gmap strings list sorting fin_maps.
From Stdlib Require Import ZArith Ascii.

Local Open Scope Z_scope.
Local Open Scope nat_scope.

(** ** Python [str] methods used by the code and by [posixpath] *)

Module PyStr.

(** [s.rfind(c)] for a one-character [c]: the highest index at which
    [c] occurs, [-1] when it does not occur. *)
Fixpoint rfind (c : ascii) (s : string) : Z :=
  match s with
  | EmptyString => (-1)%Z
  | String x s' =>
      let r := rfind c s' in
      if (0 <=? r)%Z then (r + 1)%Z
      else if Ascii.eqb x c then 0%Z else (-1)%Z
  end.

(** [s[:i]] and [s[i:]] for an index [i >= 0]; out-of-range indices are
    clamped, as Python slices do. *)
Fixpoint slice_to (i : nat) (s : string) : string :=
  match i, s with
  | S i', String x s' => String x (slice_to i' s')
  | _, _ => EmptyString
  end.

Fixpoint slice_from (i : nat) (s : string) : string :=
  match i, s with
  | S i', String _ s' => slice_from i' s'
  | _, _ => s
  end.

(** [c * n] *)
Fixpoint repeat (c : ascii) (n : nat) : string :=
  match n with
  | O => EmptyString
  | S n' => String c (repeat c n')
  end.

(** [s.rstrip(c)] for a one-character [c]. *)
Fixpoint rstrip (c : ascii) (s : string) : string :=
  match s with
  | EmptyString => EmptyString
  | String x s' =>
      match rstrip c s' with
      | EmptyString => if Ascii.eqb x c then EmptyString else String x EmptyString
      | r => String x r
      end
  end.

(** [c in s] for a one-character [c]. *)
Fixpoint contains (c : ascii) (s : string) : bool :=
  match s with
  | EmptyString => false
  | String x s' => Ascii.eqb x c || contains c s'
  end.

(** [s.startswith(p)] *)
Definition startswith (p s : string) : bool := String.prefix p s.

(** [s.endswith(suffix)] for one suffix. *)
Definition endswith1 (suffix s : string) : bool :=
  (String.length suffix <=? String.length s) &&
  String.eqb (slice_from (String.length s - String.length suffix) s) suffix.

(** [s.endswith(suffixes)] for a tuple of suffixes. *)
Definition endswith (suffixes : list string) (s : string) : bool :=
  existsb (fun suffix => endswith1 suffix s) suffixes.

(** [sep.join(parts)] *)
Definition join (sep : string) (parts : list string) : string :=
  String.concat sep parts.

End PyStr.

(** ** [posixpath]: [os.path.dirname], [os.path.basename], [os.path.join] *)

Module PosixPath.

Definition sep : ascii := "/"%char.

(** [i = p.rfind(sep) + 1; return p[i:]] *)
Definition basename (p : string) : string :=
  let i := (PyStr.rfind sep p + 1)%Z in
  PyStr.slice_from (Z.to_nat i) p.

(** [i = p.rfind(sep) + 1; head = p[:i];
     if head and head != sep*len(head): head = head.rstrip(sep);
     return head] *)
Definition dirname (p : string) : string :=
  let i := (PyStr.rfind sep p + 1)%Z in
  let head := PyStr.slice_to (Z.to_nat i) p in
  if negb (String.eqb head "") &&
     negb (String.eqb head (PyStr.repeat sep (String.length head)))
  then PyStr.rstrip sep head
  else head.

(** [os.path.join(a, b)] with one component [b]. *)
Definition join (a b : string) : string :=
  if PyStr.startswith "/" b then b
  else if String.eqb a "" || PyStr.endswith1 "/" a then a +:+ b
  else a +:+ "/" +:+ b.

End PosixPath.

(** ** The environment and the effects of the program *)

(** What [os.listdir] returns: the names of the entries of a directory,
    each once, in arbitrary order. *)
Record listing : Type := {
  entries : list string;
  entries_NoDup : NoDup entries
}.

Section Program.

(** [image_module.Image] and [tf.Tensor]. *)
Variables Image Tensor : Type.

(** The calls that leave the file.
    - [listdir] raises [OSError] when the directory cannot be listed
      ([None]).
    - [create_from_file] raises [RuntimeError] when the file cannot be
      decoded ([None]).
    - [align] is [aligner.align]: it returns [None] when no face is
      detected in the image.
    - [to_tensor image] is [tf.convert_to_tensor(image.numpy_view())]. *)
Record World : Type := {
  abspath : string -> string;
  glob : string -> list string;
  listdir : string -> option listing;
  isdir : string -> bool;
  create_from_file : string -> option Image;
  align : Image -> option Image;
  to_tensor : Image -> Tensor
}.

(** The exceptions of the program: its two [raise ValueError(...)], the
    [KeyError] of the lookup [index_by_label[...]], the [AttributeError]
    of [aligned_image.numpy_view()] on [None], and the [RuntimeError] and
    [OSError] that come out of [create_from_file] and [os.listdir]. *)
Inductive exn : Type :=
| ValueError (msg : string)
| KeyError (key : string)
| RuntimeError (file_name : string)
| AttributeError (msg : string)
| OSError (filename : string).

Inductive result (A : Type) : Type :=
| Ok (a : A)
| Raise (e : exn).
Global Arguments Ok {A} a.
Global Arguments Raise {A} e.

(** The calls the program makes, in the order it makes them. *)
Inductive event : Type :=
| EvGlob (pattern : string)
| EvCreateAligner
| EvCreateFromFile (path : string)
| EvAlign (path : string)
| EvListdir (root : string)
| EvFromTensorSlices
| EvLogInfo (all_image_size all_label_size : nat) (labels : string).

(** A computation appends to the log of calls and returns or raises. *)
Definition M (A : Type) : Type := list event -> list event * result A.

Definition ret {A} (a : A) : M A := fun tr => (tr, Ok a).

Definition raise {A} (e : exn) : M A := fun tr => (tr, Raise e).

Definition bind {A B} (m : M A) (k : A -> M B) : M B :=
  fun tr =>
    match m tr with
    | (tr', Ok a) => k a tr'
    | (tr', Raise e) => (tr', Raise e)
    end.

Definition emit (e : event) : M unit := fun tr => (tr ++ [e], Ok tt).

Definition run {A} (m : M A) : list event * result A := m [].

Notation "x <- m ;; k" := (bind m (fun x => k))
  (at level 200, m at level 99, k at level 200).
Notation "m ;;; k" := (bind m (fun _ => k))
  (at level 200, k at level 200).

(** ** [_preprocess_face_dataset] *)

(** Lines 33-36: the aligner is created once, before the loop. *)
Definition create_aligner : M unit := emit EvCreateAligner.

(** Line 41: [image_module.Image.create_from_file(path)]. *)
Definition image_create_from_file (w : World) (path : string) : M Image :=
  emit (EvCreateFromFile path) ;;;
  match create_from_file w path with
  | Some image => ret image
  | None => raise (RuntimeError path)
  end.

(** Line 42: [aligner.align(image)]. *)
Definition aligner_align (w : World) (path : string) (image : Image)
    : M (option Image) :=
  emit (EvAlign path) ;;;
  ret (align w image).

(** Line 43: [tf.convert_to_tensor(aligned_image.numpy_view())]; the
    attribute lookup fails on [None]. *)
Definition numpy_view_tensor (w : World) (aligned_image : option Image)
    : M Tensor :=
  match aligned_image with
  | Some aligned => ret (to_tensor w aligned)
  | None => raise (AttributeError "'NoneType' object has no attribute 'numpy_view'")
  end.

(** Lines 39-44: the loop, one iteration per path, appending to
    [preprocessed_images]. *)
Fixpoint preprocess_loop (w : World) (all_image_paths : list string)
    (preprocessed_images : list Tensor) : M (list Tensor) :=
  match all_image_paths with
  | [] => ret preprocessed_images
  | path :: rest =>
      image <- image_create_from_file w path ;;
      aligned_image <- aligner_align w path image ;;
      aligned_image_tensor <- numpy_view_tensor w aligned_image ;;
      preprocess_loop w rest (preprocessed_images ++ [aligned_image_tensor])
  end.

Definition _preprocess_face_dataset (w : World)
    (all_image_paths : list string) : M (list Tensor) :=
  create_aligner ;;;
  preprocess_loop w all_image_paths [].

(** ** [Dataset.from_folder] *)

(** The object [Dataset(dataset=..., size=..., label_names=...)]:
    the constructor of [ClassificationDataset] keeps its three arguments.
    [dataset] is the sequence of elements of the [tf.data.Dataset]. *)
Record Dataset : Type := mkDataset {
  dataset : list (Tensor * Z);
  size : nat;
  label_names : list string
}.

(** [fname.endswith(('.jpg', '.jpeg', '.png'))] *)
Definition has_image_suffix (fname : string) : bool :=
  PyStr.endswith [".jpg"; ".jpeg"; ".png"] fname.

(** [sorted(...)] on strings: ascending in the order of [str], which
    compares character by character (here, byte by byte). *)
Definition sorted (names : list string) : list string :=
  merge_sort String.le names.

(** Line 88: [os.listdir(data_root)]. *)
Definition os_listdir (w : World) (data_root : string) : M (list string) :=
  emit (EvListdir data_root) ;;;
  match listdir w data_root with
  | Some l => ret (entries l)
  | None => raise (OSError data_root)
  end.

(** Lines 86-90, for the names that [os.listdir] returned. *)
Definition list_label_names (w : World) (data_root : string)
    (names : list string) : list string :=
  sorted
    (filter (fun name => isdir w (PosixPath.join data_root name) = true) names).

(** [enumerate(l)] *)
Definition enumerate {A} (l : list A) : list (nat * A) :=
  imap (fun index name => (index, name)) l.

(** [dict(pairs)]: the pairs are inserted from left to right, a later
    pair replaces an earlier one with the same key. *)
Definition dict (pairs : list (string * nat)) : gmap string nat :=
  foldl (fun d kv => <[kv.1 := kv.2]> d) ∅ pairs.

(** Lines 92-94. *)
Definition make_index_by_label (label_names : list string) : gmap string nat :=
  dict (map (fun '(index, name) => (name, index)) (enumerate label_names)).

(** [index_by_label[key]] *)
Definition getitem (index_by_label : gmap string nat) (key : string) : M nat :=
  match index_by_label !! key with
  | Some index => ret index
  | None => raise (KeyError key)
  end.

(** [os.path.basename(os.path.dirname(path))] *)
Definition parent_name (path : string) : string :=
  PosixPath.basename (PosixPath.dirname path).

(** Lines 96-99: the list comprehension, evaluated from left to right. *)
Fixpoint image_labels (index_by_label : gmap string nat)
    (all_image_paths : list string) : M (list nat) :=
  match all_image_paths with
  | [] => ret []
  | path :: rest =>
      label <- getitem index_by_label (parent_name path) ;;
      labels <- image_labels index_by_label rest ;;
      ret (label :: labels)
  end.

(** [tf.cast(all_image_labels, tf.int64)]: the labels are list positions. *)
Definition cast_int64 (labels : list nat) : list Z := map Z.of_nat labels.

(** [tf.data.Dataset.from_tensor_slices(xs)]: one element per entry. *)
Definition from_tensor_slices {A} (xs : list A) : list A := xs.

(** [tf.data.Dataset.zip((a, b))]: pairs, up to the shorter length. *)
Definition dataset_zip {A B} (a : list A) (b : list B) : list (A * B) :=
  zip a b.

Definition from_folder (w : World) (dirname : string) : M Dataset :=
  let data_root := abspath w dirname in
  emit (EvGlob (data_root +:+ "/*/*")) ;;;
  let all_image_paths := glob w (data_root +:+ "/*/*") in
  let all_image_size := length all_image_paths in
  if all_image_size =? 0 then
    raise (ValueError "Invalid input data directory")
  else if negb (existsb has_image_suffix all_image_paths) then
    raise (ValueError "No images found under given directory")
  else
    image_data <- _preprocess_face_dataset w all_image_paths ;;
    names <- os_listdir w data_root ;;
    let label_names := list_label_names w data_root names in
    let all_label_size := length label_names in
    let index_by_label := make_index_by_label label_names in
    all_image_labels <- image_labels index_by_label all_image_paths ;;
    emit EvFromTensorSlices ;;;
    let image_ds := from_tensor_slices image_data in
    emit EvFromTensorSlices ;;;
    let label_ds := from_tensor_slices (cast_int64 all_image_labels) in
    let image_label_ds := dataset_zip image_ds label_ds in
    emit (EvLogInfo all_image_size all_label_size
                    (PyStr.join ", " label_names)) ;;;
    ret (mkDataset image_label_ds all_image_size label_names).

(** Lines 41-43 for one path, without the log: the aligned tensor of the
    path, or the exception that the path is rejected with. *)
Definition align_path (w : World) (path : string) : result Tensor :=
  match create_from_file w path with
  | None => Raise (RuntimeError path)
  | Some image =>
      match align w image with
      | None => Raise (AttributeError "'NoneType' object has no attribute 'numpy_view'")
      | Some aligned => Ok (to_tensor w aligned)
      end
  end.

(** The calls of one iteration that runs to its end, and of one that
    ends in an exception. *)
Definition step_events (path : string) : list event :=
  [EvCreateFromFile path; EvAlign path].

Definition rejected_events (w : World) (path : string) : list event :=
  match create_from_file w path with
  | None => [EvCreateFromFile path]
  | Some _ => [EvCreateFromFile path; EvAlign path]
  end.

End Program.

Arguments abspath {Image Tensor} _ _.
Arguments glob {Image Tensor} _ _.
Arguments listdir {Image Tensor} _ _.
Arguments isdir {Image Tensor} _ _.
Arguments create_from_file {Image Tensor} _ _.
Arguments align {Image Tensor} _ _.
Arguments to_tensor {Image Tensor} _ _.
Arguments Build_World {Image Tensor} _ _ _ _ _ _ _.
Arguments dataset {Tensor} _.
Arguments size {Tensor} _.
Arguments label_names {Tensor} _.
Arguments mkDataset {Tensor} _ _ _.
Arguments image_create_from_file {Image Tensor} _ _ _.
Arguments aligner_align {Image Tensor} _ _ _ _.
Arguments numpy_view_tensor {Image Tensor} _ _ _.
Arguments preprocess_loop {Image Tensor} _ _ _ _.
Arguments _preprocess_face_dataset {Image Tensor} _ _ _.
Arguments os_listdir {Image Tensor} _ _ _.
Arguments list_label_names {Image Tensor} _ _ _.
Arguments from_folder {Image Tensor} _ _ _.
Arguments align_path {Image Tensor} _ _.
Arguments rejected_events {Image Tensor} _ _.

(** ** Reading the log, and the state of the directory *)

(** The paths handed to [create_from_file] and to [aligner.align], in the
    order of the calls. *)
Definition loaded_paths (tr : list event) : list string :=
  omap (fun e => match e with EvCreateFromFile path => Some path | _ => None end) tr.

Definition aligned_paths (tr : list event) : list string :=
  omap (fun e => match e with EvAlign path => Some path | _ => None end) tr.

(** The log of a run that reaches line 88. *)
Definition seen_at_listdir (pattern data_root : string)
    (paths : list string) : list event :=
  EvGlob pattern :: EvCreateAligner :: flat_map step_events paths
  ++ [EvListdir data_root].

(** [name] is an immediate subdirectory of [data_root] when line 88 lists
    it and line 89 finds a directory under that name. *)
Definition is_subdirectory {Image Tensor} (w : World Image Tensor)
    (data_root name : string) : Prop :=
  exists l, listdir w data_root = Some l
            /\ name ∈ entries l
            /\ isdir w (PosixPath.join data_root name) = true.


(** ** What the claims say of a run *)

(** [_preprocess_face_dataset] returns one tensor per path, the i-th one
    aligned from the i-th path. *)
Definition one_tensor_per_path {Image Tensor} (w : World Image Tensor)
    (all_image_paths : list string) : Prop :=
  exists tr preprocessed_images,
    run (_preprocess_face_dataset w all_image_paths) = (tr, Ok preprocessed_images)
    /\ length preprocessed_images = length all_image_paths
    /\ forall i path, all_image_paths !! i = Some path ->
         exists aligned_image_tensor,
           preprocessed_images !! i = Some aligned_image_tensor
           /\ align_path w path = Ok aligned_image_tensor.

(** [from_folder] returns the images zipped with their labels: it returns
    a [Dataset] whose [size] is the number of globbed paths and whose i-th
    element pairs the aligned tensor of the i-th globbed path with the
    index of the name of that path's parent directory. *)
Definition returns_zipped_dataset {Image Tensor} (w : World Image Tensor)
    (dirname : string) : Prop :=
  let data_root := abspath w dirname in
  let all_image_paths := glob w (data_root +:+ "/*/*") in
  exists tr ds,
    run (from_folder w dirname) = (tr, Ok ds)
    /\ size ds = length all_image_paths
    /\ length (dataset ds) = length all_image_paths
    /\ forall i path, all_image_paths !! i = Some path ->
         exists aligned_image_tensor label,
           dataset ds !! i = Some (aligned_image_tensor, Z.of_nat label)
           /\ align_path w path = Ok aligned_image_tensor
           /\ make_index_by_label (label_names ds) !! parent_name path = Some label.



(** ** One state of the file system *)

(** The glob of line 76 and the listing of lines 88-89 read the file
    system. [Fs.world] is the world in which they read the same state of
    it: [tf.io.gfile.glob] matches the pattern component by component with
    [fnmatch], descending into directories, and [os.listdir] and
    [os.path.isdir] resolve a path component by component. *)
Module Fs.

Inductive kind : Type := File | Dir.

#[global] Instance kind_eq_dec : EqDecision kind.
Proof. solve_decision. Defined.

(** [s.split('/')] *)
Definition cons_head (c : ascii) (pieces : list string) : list string :=
  match pieces with
  | [] => [String c ""]
  | piece :: pieces' => String c piece :: pieces'
  end.

Fixpoint split (s : string) : list string :=
  match s with
  | EmptyString => [""]
  | String c s' =>
      if Ascii.eqb c PosixPath.sep then "" :: split s' else cons_head c (split s')
  end.



(** *** [fnmatch] on one component *)










(** *** The state *)











End Fs.

(** ** Example directories *)

Module Examples.

(** An image is named after the file it was decoded from, an aligned
    image after the image, a tensor after the aligned image. *)
Definition decode (path : string) : option string := Some ("image:" +:+ path).

Definition detect (image : string) : option string := Some ("aligned:" +:+ image).

Definition tensor_of (image : string) : string := "tensor:" +:+ image.

Definition aligned (path : string) : string := "tensor:aligned:image:" +:+ path.

Definition names (l : list string) (H : Is_true (bool_decide (NoDup l))) : listing :=
  {| entries := l; entries_NoDup := bool_decide_unpack _ H |}.

(** [/data] holds the directories [b] and [a] and the file [readme];
    [b] holds two images, one of them with an upper-case suffix, and [a]
    holds an image. *)
Definition styles : World string string := {|
  abspath := fun dirname => dirname;
  glob := fun pattern =>
    if String.eqb pattern "/data/*/*"
    then ["/data/b/1.jpg"; "/data/a/2.png"; "/data/b/3.JPG"] else [];
  listdir := fun dir =>
    if String.eqb dir "/data" then Some (names ["b"; "readme"; "a"] I) else None;
  isdir := fun path => String.eqb path "/data/a" || String.eqb path "/data/b";
  create_from_file := decode;
  align := detect;
  to_tensor := tensor_of
|}.

(** The same directory, seen from [/] under the relative name [data],
    after the file [readme] was removed; the entries are listed in
    another order. *)
Definition styles_again : World string string := {|
  abspath := fun dirname => "/" +:+ dirname;
  glob := glob styles;
  listdir := fun dir =>
    if String.eqb dir "/data" then Some (names ["a"; "b"] I) else None;
  isdir := isdir styles;
  create_from_file := decode;
  align := detect;
  to_tensor := tensor_of
|}.

(** [/data] has no entry two levels down. *)
Definition empty_folder : World string string := {|
  abspath := fun dirname => dirname;
  glob := fun _ => [];
  listdir := fun dir => if String.eqb dir "/data" then Some (names [] I) else None;
  isdir := fun _ => false;
  create_from_file := decode;
  align := detect;
  to_tensor := tensor_of
|}.

(** [/data/a] holds one file, which is not an image by its name. *)
Definition no_image : World string string := {|
  abspath := fun dirname => dirname;
  glob := fun pattern =>
    if String.eqb pattern "/data/*/*" then ["/data/a/notes.JPG"] else [];
  listdir := fun dir => if String.eqb dir "/data" then Some (names ["a"] I) else None;
  isdir := fun path => String.eqb path "/data/a";
  create_from_file := decode;
  align := detect;
  to_tensor := tensor_of
|}.

(** [/data/a/1.jpg] is there when line 76 globs; by the time line 88
    lists [/data], the directory [a] has been renamed to [b]. *)
Definition renamed : World string string := {|
  abspath := fun dirname => dirname;
  glob := fun pattern =>
    if String.eqb pattern "/data/*/*" then ["/data/a/1.jpg"] else [];
  listdir := fun dir => if String.eqb dir "/data" then Some (names ["b"] I) else None;
  isdir := fun path => String.eqb path "/data/b";
  create_from_file := decode;
  align := detect;
  to_tensor := tensor_of
|}.

(** [/data/b] holds a text file, which cannot be decoded as an image, and
    an image. *)
Definition with_notes : World string string := {|
  abspath := fun dirname => dirname;
  glob := fun pattern =>
    if String.eqb pattern "/data/*/*"
    then ["/data/b/notes.txt"; "/data/b/1.jpg"] else [];
  listdir := fun dir => if String.eqb dir "/data" then Some (names ["b"] I) else None;
  isdir := fun path => String.eqb path "/data/b";
  create_from_file := fun path =>
    if String.eqb path "/data/b/notes.txt" then None else decode path;
  align := detect;
  to_tensor := tensor_of
|}.

(** [/data/a] holds two images; no face is detected in the second. *)
Definition no_face : World string string := {|
  abspath := fun dirname => dirname;
  glob := fun pattern =>
    if String.eqb pattern "/data/*/*"
    then ["/data/a/1.jpg"; "/data/a/2.jpg"] else [];
  listdir := fun dir => if String.eqb dir "/data" then Some (names ["a"] I) else None;
  isdir := fun path => String.eqb path "/data/a";
  create_from_file := decode;
  align := fun image =>
    if String.eqb image "image:/data/a/2.jpg" then None else detect image;
  to_tensor := tensor_of
|}.





End Examples.

(** * Properties *)

(** ** Strings and paths *)

Section PyStrFacts.

Import PyStr.

Lemma append_cons x s t : String x s +:+ t = String x (s +:+ t).
Proof. reflexivity. Qed.

Lemma append_nil_l t : "" +:+ t = t.
Proof. reflexivity. Qed.

Lemma append_assoc s t u : (s +:+ t) +:+ u = s +:+ t +:+ u.
Proof. induction s as [|x s IH]; [done|]. by rewrite !append_cons, IH. Qed.

Lemma length_append s t :
  String.length (s +:+ t) = String.length s + String.length t.
Proof. induction s as [|x s IH]; [done|]. rewrite append_cons. simpl. lia. Qed.

Lemma rfind_ge c s : (-1 <= rfind c s)%Z.
Proof.
  induction s as [|x s IH]; simpl; [lia|].
  destruct (Z.leb_spec 0 (rfind c s)); [lia|].
  destruct (Ascii.eqb x c); lia.
Qed.

Lemma rfind_absent c s : contains c s = false -> rfind c s = (-1)%Z.
Proof.
  induction s as [|x s IH]; simpl; [done|].
  intros [Hx Hs]%orb_false_iff. rewrite (IH Hs), Hx. done.
Qed.

(** The last occurrence of [c] in [s ++ c ++ b], when [b] is free of [c],
    is the one in the middle. *)
Lemma rfind_last c s b :
  contains c b = false ->
  rfind c (s +:+ String c b) = Z.of_nat (String.length s).
Proof.
  intros Hb. induction s as [|x s IH].
  - rewrite append_nil_l. simpl. rewrite (rfind_absent _ _ Hb).
    by rewrite Ascii.eqb_refl.
  - rewrite append_cons. simpl rfind. rewrite IH.
    destruct (Z.leb_spec 0 (Z.of_nat (String.length s))); simpl String.length; lia.
Qed.

Lemma slice_to_append s t : slice_to (String.length s) (s +:+ t) = s.
Proof.
  induction s as [|x s IH]; [by destruct t|].
  rewrite append_cons. simpl. by rewrite IH.
Qed.

Lemma slice_from_append s t : slice_from (String.length s) (s +:+ t) = t.
Proof. induction s as [|x s IH]; [by destruct t|]. by rewrite append_cons. Qed.

Lemma rstrip_fixed c s : contains c s = false -> s <> "" -> rstrip c s = s.
Proof.
  induction s as [|x s IH]; [done|]. simpl.
  intros [Hx Hs]%orb_false_iff _. destruct s as [|y s].
  - simpl. by rewrite Hx.
  - rewrite IH by done. done.
Qed.

Lemma rstrip_append_keep c s t :
  rstrip c t <> "" -> rstrip c (s +:+ t) = s +:+ rstrip c t.
Proof.
  intros Ht. induction s as [|x s IH]; [done|].
  rewrite !append_cons. simpl. rewrite IH.
  destruct (s +:+ rstrip c t) eqn:E; [|done].
  destruct s; [|done]. rewrite append_nil_l in E. done.
Qed.

Lemma rstrip_snoc c s : rstrip c (s +:+ String c "") = rstrip c s.
Proof.
  induction s as [|x s IH].
  - rewrite append_nil_l. simpl. by rewrite Ascii.eqb_refl.
  - rewrite append_cons. simpl. by rewrite IH.
Qed.

Lemma repeat_contains c d n : d <> c -> contains d (repeat c n) = false.
Proof.
  intros Hd. induction n as [|n IH]; [done|]. simpl. rewrite IH.
  by apply orb_false_iff, conj; [apply Ascii.eqb_neq|].
Qed.

Lemma contains_append c s t :
  contains c (s +:+ t) = contains c s || contains c t.
Proof.
  induction s as [|x s IH]; [done|].
  rewrite append_cons. simpl. by rewrite IH, orb_assoc.
Qed.

End PyStrFacts.

Section PosixPathFacts.

Import PyStr PosixPath.

Lemma snoc_append s c t : s +:+ String c t = (s +:+ String c "") +:+ t.
Proof. by rewrite append_assoc. Qed.

Lemma basename_last s b :
  contains sep b = false -> basename (s +:+ String sep b) = b.
Proof.
  intros Hb. unfold basename. rewrite (rfind_last _ _ _ Hb).
  replace (Z.to_nat (Z.of_nat (String.length s) + 1))
    with (String.length (s +:+ String sep "")) by (rewrite length_append; simpl; lia).
  rewrite (snoc_append s sep b). apply slice_from_append.
Qed.

Lemma dirname_last s b :
  contains sep b = false ->
  rstrip sep s = s -> s <> "" ->
  dirname (s +:+ String sep b) = s.
Proof.
  intros Hb Hs Hne. unfold dirname. rewrite (rfind_last _ _ _ Hb).
  replace (Z.to_nat (Z.of_nat (String.length s) + 1))
    with (String.length (s +:+ String sep "")) by (rewrite length_append; simpl; lia).
  rewrite (snoc_append s sep b), slice_to_append.
  assert (Hstrip : rstrip sep (s +:+ String sep "") = s) by (by rewrite rstrip_snoc).
  destruct (String.eqb_spec (s +:+ String sep "") "") as [E|_].
  { by destruct s. }
  destruct (String.eqb_spec (s +:+ String sep "")
              (repeat sep (String.length (s +:+ String sep "")))) as [E|_];
    [|done].
  exfalso. rewrite E in Hstrip. revert Hstrip Hne. clear.
  generalize (String.length (s +:+ String sep "")). intros n Hn Hne.
  apply Hne. rewrite <- Hn. clear. induction n as [|n IH]; [done|].
  simpl. by rewrite IH.
Qed.


End PosixPathFacts.

Section MorePathFacts.

Import PyStr PosixPath.

Lemma slice_to_from n s : slice_to n s +:+ slice_from n s = s.
Proof.
  revert n. induction s as [|x s IH]; intros [|n]; try done.
  simpl. by rewrite append_cons, IH.
Qed.

Lemma length_slice_to n s : n <= String.length s -> String.length (slice_to n s) = n.
Proof.
  revert n. induction s as [|x s IH]; intros [|n]; simpl; try lia.
  intros Hn. rewrite IH; lia.
Qed.

(** [s.endswith(suffix)] holds exactly when [s] is some stem followed by
    [suffix]. *)
Lemma endswith1_iff suffix s :
  endswith1 suffix s = true <-> exists stem, s = stem +:+ suffix.
Proof.
  unfold endswith1. rewrite andb_true_iff, Nat.leb_le, String.eqb_eq. split.
  - intros [Hlen Hsuffix].
    exists (slice_to (String.length s - String.length suffix) s).
    rewrite <- (slice_to_from (String.length s - String.length suffix) s) at 1.
    by rewrite Hsuffix.
  - intros [stem ->]. rewrite length_append. split; [lia|].
    replace (String.length stem + String.length suffix - String.length suffix)
      with (String.length stem) by lia.
    apply slice_from_append.
Qed.

Lemma rfind_absent_iff c s : rfind c s = (-1)%Z <-> contains c s = false.
Proof.
  split; [|apply rfind_absent].
  induction s as [|x s IH]; simpl; [done|].
  pose proof (rfind_ge c s) as Hge.
  destruct (Z.leb_spec 0 (rfind c s)); [lia|].
  destruct (Ascii.eqb x c); [done|]. intros _. apply IH. lia.
Qed.

Lemma basename_absent b : contains sep b = false -> basename b = b.
Proof. intros Hb. unfold basename. by rewrite (rfind_absent _ _ Hb). Qed.

(** What follows the last separator holds no separator. *)
Lemma basename_sep_free p : contains sep (basename p) = false.
Proof.
  unfold basename. induction p as [|x p IH]; [done|].
  simpl rfind. pose proof (rfind_ge sep p) as Hge.
  destruct (Z.leb_spec 0 (rfind sep p)) as [Hr|Hr].
  - replace (Z.to_nat (rfind sep p + 1 + 1)) with (S (Z.to_nat (rfind sep p + 1)))
      by lia.
    exact IH.
  - assert (Hp : contains sep p = false) by (apply rfind_absent_iff; lia).
    destruct (Ascii.eqb x sep) eqn:Hx; simpl; [done|]. by rewrite Hx.
Qed.

Lemma basename_suffix p : exists head, p = head +:+ basename p.
Proof.
  unfold basename. eexists. symmetry. apply slice_to_from.
Qed.

Lemma rstrip_prefix c s : exists tail, s = rstrip c s +:+ tail.
Proof.
  induction s as [|x s [tail IH]]; [by exists ""|]. simpl.
  destruct (rstrip c s) as [|y r] eqn:E.
  - destruct (Ascii.eqb x c).
    + by exists (String x s).
    + exists s. done.
  - exists tail. rewrite append_cons. by rewrite <- IH.
Qed.

Lemma dirname_prefix p : exists tail, p = dirname p +:+ tail.
Proof.
  unfold dirname. set (i := Z.to_nat (rfind sep p + 1)).
  destruct (_ && _).
  - destruct (rstrip_prefix sep (slice_to i p)) as [tail Htail].
    exists (tail +:+ slice_from i p).
    rewrite <- append_assoc, <- Htail. symmetry. apply slice_to_from.
  - exists (slice_from i p). symmetry. apply slice_to_from.
Qed.

Lemma rstrip_repeat c n : rstrip c (repeat c n) = "".
Proof.
  induction n as [|n IH]; [done|]. simpl. by rewrite IH, Ascii.eqb_refl.
Qed.

Lemma repeat_snoc c n : repeat c (S n) = repeat c n +:+ String c "".
Proof.
  induction n as [|n IH]; [done|].
  change (String c (repeat c (S n)) = String c (repeat c n +:+ String c "")).
  by f_equal.
Qed.

Lemma rstrip_append_repeat c s n : rstrip c (s +:+ repeat c n) = rstrip c s.
Proof.
  induction n as [|n IH].
  - simpl. replace (s +:+ "") with s; [done|].
    clear. induction s as [|x s IH]; [done|]. by rewrite append_cons, <- IH.
  - rewrite repeat_snoc, <- append_assoc, rstrip_snoc. exact IH.
Qed.

(** [dirname] drops the last component and every separator before it,
    unless nothing but separators would be left. *)
Lemma dirname_strip t b :
  contains sep b = false -> rstrip sep t <> "" ->
  dirname (t +:+ String sep b) = rstrip sep t.
Proof.
  intros Hb Ht. unfold dirname. rewrite (rfind_last _ _ _ Hb).
  replace (Z.to_nat (Z.of_nat (String.length t) + 1))
    with (String.length (t +:+ String sep "")) by (rewrite length_append; simpl; lia).
  rewrite (snoc_append t sep b), slice_to_append.
  assert (Hstrip : rstrip sep (t +:+ String sep "") = rstrip sep t)
    by apply rstrip_snoc.
  destruct (String.eqb_spec (t +:+ String sep "") "") as [E|_].
  { by destruct t. }
  destruct (String.eqb_spec (t +:+ String sep "")
              (repeat sep (String.length (t +:+ String sep "")))) as [E|_];
    [|done].
  exfalso. rewrite E, rstrip_repeat in Hstrip. by apply Ht.
Qed.

End MorePathFacts.


(** ** The loop, the dictionary and the sorted label names *)

Section ProgramFacts.

Context {Image Tensor : Type}.
Implicit Types (w : World Image Tensor) (tr : list event) (names paths : list string).

(** One iteration of the loop of lines 39-44. *)
Lemma preprocess_loop_step w path rest (images : list Tensor) tr :
  preprocess_loop w (path :: rest) images tr
  = match align_path w path with
    | Ok aligned_image_tensor =>
        preprocess_loop w rest (images ++ [aligned_image_tensor])
                        (tr ++ step_events path)
    | Raise e => (tr ++ rejected_events w path, Raise e)
    end.
Proof.
  simpl. unfold bind, image_create_from_file, aligner_align, numpy_view_tensor,
    align_path, rejected_events, step_events, bind, emit, ret, raise.
  destruct (create_from_file w path) as [image|]; [|done].
  destruct (align w image) as [aligned|]; rewrite <- app_assoc; done.
Qed.

Lemma preprocess_loop_Ok w paths (aligned images : list Tensor) tr :
  Forall2 (fun path t => align_path w path = Ok t) paths aligned ->
  preprocess_loop w paths images tr
  = (tr ++ flat_map step_events paths, Ok (images ++ aligned)).
Proof.
  intros Hall. revert images tr.
  induction Hall as [|path t rest aligned Ht _ IH]; intros images tr.
  - simpl. unfold ret. by rewrite !app_nil_r.
  - rewrite preprocess_loop_step, Ht, IH.
    change (flat_map step_events (path :: rest))
      with (step_events path ++ flat_map step_events rest).
    by rewrite <- !app_assoc.
Qed.

Lemma preprocess_loop_Raise w before path after (aligned images : list Tensor) e tr :
  Forall2 (fun path t => align_path w path = Ok t) before aligned ->
  align_path w path = Raise e ->
  preprocess_loop w (before ++ path :: after) images tr
  = (tr ++ flat_map step_events before ++ rejected_events w path, Raise e).
Proof.
  intros Hall Hpath. revert images tr.
  induction Hall as [|p t rest aligned Ht _ IH]; intros images tr.
  - simpl app. by rewrite preprocess_loop_step, Hpath.
  - change ((p :: rest) ++ path :: after) with (p :: (rest ++ path :: after)).
    rewrite preprocess_loop_step, Ht, IH.
    change (flat_map step_events (p :: rest))
      with (step_events p ++ flat_map step_events rest).
    by rewrite <- !app_assoc.
Qed.

(** Either every path is aligned, or there is a first path that is
    rejected. *)
Lemma align_all_cases w paths :
  (exists aligned, Forall2 (fun path t => align_path w path = Ok t) paths aligned)
  \/ (exists before path after aligned e,
        paths = before ++ path :: after
        /\ Forall2 (fun path t => align_path w path = Ok t) before aligned
        /\ align_path w path = Raise e).
Proof.
  induction paths as [|path rest IH].
  - left. exists []. constructor.
  - destruct (align_path w path) as [t|e] eqn:Hpath.
    + destruct IH as [[aligned Hall]|(before & p & after & aligned & e & -> & Hall & Hp)].
      * left. exists (t :: aligned). by constructor.
      * right. exists (path :: before), p, after, (t :: aligned), e.
        split; [done|]. split; [by constructor|done].
    + right. exists [], path, rest, [], e. split; [done|]. split; [constructor|done].
Qed.

Lemma Forall2_align_unique w paths (aligned aligned' : list Tensor) :
  Forall2 (fun path t => align_path w path = Ok t) paths aligned ->
  Forall2 (fun path t => align_path w path = Ok t) paths aligned' ->
  aligned = aligned'.
Proof.
  intros H. revert aligned'. induction H as [|path t rest aligned Ht _ IH];
    intros aligned' H'.
  - by apply Forall2_nil_inv_l in H'.
  - apply Forall2_cons_inv_l in H' as (t' & aligned'' & Ht' & H' & ->).
    f_equal; [congruence|by apply IH].
Qed.

Lemma Forall2_align_total w paths :
  (forall path, path ∈ paths -> exists t, align_path w path = Ok t) ->
  exists aligned, Forall2 (fun path t => align_path w path = Ok t) paths aligned.
Proof.
  intros Hall. destruct (align_all_cases w paths)
    as [?|(before & p & after & aligned & e & -> & _ & Hp)]; [done|].
  destruct (Hall p) as [t Ht]; [|congruence].
  apply elem_of_app. right. by left.
Qed.

Lemma preprocess_face_dataset_Ok w paths (aligned : list Tensor) tr :
  Forall2 (fun path t => align_path w path = Ok t) paths aligned ->
  _preprocess_face_dataset w paths tr
  = (tr ++ EvCreateAligner :: flat_map step_events paths, Ok aligned).
Proof.
  intros Hall. unfold _preprocess_face_dataset, create_aligner, bind, emit.
  rewrite (preprocess_loop_Ok _ _ _ _ _ Hall). by rewrite <- app_assoc.
Qed.

Lemma preprocess_face_dataset_Raise w before path after (aligned : list Tensor) e tr :
  Forall2 (fun path t => align_path w path = Ok t) before aligned ->
  align_path w path = Raise e ->
  _preprocess_face_dataset w (before ++ path :: after) tr
  = (tr ++ EvCreateAligner :: flat_map step_events before ++ rejected_events w path,
     Raise e).
Proof.
  intros Hall Hpath. unfold _preprocess_face_dataset, create_aligner, bind, emit.
  rewrite (preprocess_loop_Raise _ _ _ _ _ _ _ _ Hall Hpath). by rewrite <- app_assoc.
Qed.

(** A path is rejected with [RuntimeError] or with [AttributeError]. *)
Lemma align_path_Raise w path e :
  align_path w path = Raise e ->
  (create_from_file w path = None /\ e = RuntimeError path)
  \/ (exists image, create_from_file w path = Some image /\ align w image = None
        /\ e = AttributeError "'NoneType' object has no attribute 'numpy_view'").
Proof.
  unfold align_path. destruct (create_from_file w path) as [image|]; [|intros [= <-]; by left].
  destruct (align w image) eqn:E; [done|]. intros [= <-]. right. by exists image.
Qed.

(** The list comprehension of lines 96-99 makes no call: the log is
    unchanged, whatever the outcome. *)
Lemma image_labels_log (index_by_label : gmap string nat) paths tr :
  image_labels index_by_label paths tr
  = (tr, (image_labels index_by_label paths []).2).
Proof.
  revert tr. induction paths as [|path rest IH]; intros tr; [done|].
  simpl. unfold bind, getitem.
  destruct (index_by_label !! parent_name path) as [label|]; [|done].
  unfold ret at 1 3. rewrite (IH tr), (IH []). simpl.
  by destruct (image_labels index_by_label rest []).2.
Qed.

Lemma image_labels_Ok (index_by_label : gmap string nat) paths tr labels :
  image_labels index_by_label paths tr = (tr, Ok labels)
  <-> Forall2 (fun path label => index_by_label !! parent_name path = Some label)
              paths labels.
Proof.
  revert labels. induction paths as [|path rest IH]; intros labels.
  - simpl. unfold ret. split.
    + intros [= <-]. constructor.
    + intros ->%Forall2_nil_inv_l. done.
  - simpl. unfold bind, getitem. split.
    + destruct (index_by_label !! parent_name path) as [label|] eqn:E; [|done].
      unfold ret at 1.
      destruct (image_labels index_by_label rest tr) as [tr' [ls|e]] eqn:E'; [|done].
      unfold ret. intros [= -> <-]. constructor; [done|]. by apply IH.
    + intros (label & ls & Hl & Hls & ->)%Forall2_cons_inv_l.
      rewrite Hl. unfold ret at 1. apply IH in Hls. by rewrite Hls.
Qed.

Lemma image_labels_Raise (index_by_label : gmap string nat) paths tr tr' e :
  image_labels index_by_label paths tr = (tr', Raise e) ->
  exists path, path ∈ paths /\ e = KeyError (parent_name path)
               /\ index_by_label !! parent_name path = None.
Proof.
  revert tr tr'. induction paths as [|path rest IH]; intros tr tr'; [done|].
  simpl. unfold bind, getitem.
  destruct (index_by_label !! parent_name path) as [label|] eqn:E.
  - unfold ret at 1.
    destruct (image_labels index_by_label rest tr) as [tr'' [ls|e']] eqn:E'; [done|].
    intros [= -> ->]. destruct (IH _ _ E') as (p & ? & ? & ?).
    exists p. split; [by right|done].
  - intros [= -> <-]. exists path. split; [by left|done].
Qed.

Lemma image_labels_total (index_by_label : gmap string nat) paths tr :
  (forall path, path ∈ paths -> is_Some (index_by_label !! parent_name path)) ->
  exists labels, image_labels index_by_label paths tr = (tr, Ok labels).
Proof.
  intros Hall. rewrite image_labels_log.
  destruct (image_labels index_by_label paths []) as [tr' [ls|e]] eqn:E.
  - by exists ls.
  - apply image_labels_Raise in E as (p & Hp & _ & Hnone).
    destruct (Hall p Hp) as [? ?]. congruence.
Qed.

(** *** [index_by_label] *)

Lemma make_index_by_label_snoc names name :
  make_index_by_label (names ++ [name])
  = <[name := length names]> (make_index_by_label names).
Proof.
  unfold make_index_by_label, dict, enumerate.
  rewrite imap_app, map_app, foldl_app. simpl. by rewrite Nat.add_0_r.
Qed.

(** The dictionary maps a name to the position of its last occurrence. *)
Lemma make_index_by_label_lookup names name i :
  make_index_by_label names !! name = Some i
  <-> names !! i = Some name /\ forall j, i < j -> names !! j <> Some name.
Proof.
  revert i. induction names as [|x names IH] using rev_ind; intros i.
  - change (make_index_by_label []) with (∅ : gmap string nat).
    rewrite lookup_empty. split; [done|]. by intros [? _].
  - rewrite make_index_by_label_snoc. destruct (decide (x = name)) as [->|Hne].
    + rewrite lookup_insert_eq. split.
      * intros [= <-]. split.
        { by rewrite lookup_app_r, Nat.sub_diag by lia. }
        intros j Hj Hsome. apply lookup_lt_Some in Hsome.
        rewrite length_app in Hsome. simpl in Hsome. lia.
      * intros [Hi Hlast]. f_equal.
        pose proof (lookup_lt_Some _ _ _ Hi) as Hlt.
        rewrite length_app in Hlt. simpl in Hlt.
        destruct (decide (i = length names)) as [->|]; [done|].
        exfalso. apply (Hlast (length names)); [lia|].
        by rewrite lookup_app_r, Nat.sub_diag by lia.
    + rewrite lookup_insert_ne by done. rewrite IH. split.
      * intros [Hi Hlast]. split; [by apply lookup_app_l_Some|].
        intros j Hj Hsome. apply lookup_app_Some in Hsome as [Hsome|[_ Hsome]].
        { by apply (Hlast j). }
        apply list_lookup_singleton_Some in Hsome as [_ ?]. done.
      * intros [Hi Hlast]. apply lookup_app_Some in Hi as [Hi|[_ Hi]].
        { split; [done|]. intros j Hj Hsome. apply (Hlast j Hj).
          by apply lookup_app_l_Some. }
        apply list_lookup_singleton_Some in Hi as [_ ?]. done.
Qed.

Lemma make_index_by_label_NoDup names name i :
  NoDup names ->
  make_index_by_label names !! name = Some i <-> names !! i = Some name.
Proof.
  intros Hnd. rewrite make_index_by_label_lookup. split; [by intros [? _]|].
  intros Hi. split; [done|]. intros j Hj Hsome.
  pose proof (NoDup_lookup _ _ _ _ Hnd Hi Hsome). lia.
Qed.

Lemma make_index_by_label_is_Some names name :
  is_Some (make_index_by_label names !! name) <-> name ∈ names.
Proof.
  induction names as [|x names IH] using rev_ind.
  - change (make_index_by_label []) with (∅ : gmap string nat).
    rewrite lookup_empty. split; [by intros [? ?]|by intros ?%elem_of_nil].
  - rewrite make_index_by_label_snoc, elem_of_app, list_elem_of_singleton.
    destruct (decide (x = name)) as [->|Hne].
    + rewrite lookup_insert_eq. split; [by right|by eexists].
    + rewrite lookup_insert_ne by done. rewrite IH. split; [by left|].
      by intros [?|?].
Qed.

Lemma make_index_by_label_lt names name i :
  make_index_by_label names !! name = Some i -> i < length names.
Proof.
  intros [Hi _]%make_index_by_label_lookup. by apply lookup_lt_Some in Hi.
Qed.

(** The list comprehension stops at the first path whose key is missing. *)
Lemma image_labels_Raise_first (index_by_label : gmap string nat) paths tr tr' key :
  image_labels index_by_label paths tr = (tr', Raise (KeyError key))
  <-> tr' = tr
      /\ exists before path after,
           paths = before ++ path :: after
           /\ (forall p, p ∈ before -> is_Some (index_by_label !! parent_name p))
           /\ index_by_label !! parent_name path = None
           /\ key = parent_name path.
Proof.
  revert tr tr'. induction paths as [|path rest IH]; intros tr tr'.
  - simpl. unfold ret. split; [done|].
    intros (_ & before & p & after & E & _). by destruct before.
  - simpl. unfold bind, getitem.
    destruct (index_by_label !! parent_name path) as [label|] eqn:Hkey.
    + unfold ret at 1. split.
      * destruct (image_labels index_by_label rest tr) as [tr'' [ls|e]] eqn:E; [done|].
        intros [= -> ->]. apply IH in E as (-> & before & p & after & -> & Hb & Hp & Hk).
        split; [done|]. exists (path :: before), p, after. split; [done|].
        split; [|done]. intros q [->|Hq]%elem_of_cons; [by eexists|by apply Hb].
      * intros (-> & before & p & after & E & Hb & Hp & Hk).
        destruct before as [|q before]; simpl in E; injection E as -> ->.
        { congruence. }
        assert (image_labels index_by_label (before ++ p :: after) tr
                = (tr, Raise (KeyError key))) as ->; [|done].
        apply IH. split; [done|]. exists before, p, after. split; [done|].
        split; [|done]. intros r Hr. apply Hb. by right.
    + split.
      * intros [= -> <-]. split; [done|]. exists [], path, rest. split; [done|].
        split; [|done]. by intros p ?%elem_of_nil.
      * intros (-> & before & p & after & E & Hb & Hp & Hk).
        destruct before as [|q before]; simpl in E; injection E as -> ->.
        { by subst key. }
        destruct (Hb q) as [? ?]; [by left|congruence].
Qed.

(** *** [sorted] and [label_names] *)

Lemma sorted_Sorted names : Sorted String.le (sorted names).
Proof. apply Sorted_merge_sort, _. Qed.

Lemma sorted_Permutation names : sorted names ≡ₚ names.
Proof. apply merge_sort_Permutation. Qed.

(** Two listings with the same names sort to the same list. *)
Lemma sorted_unique names1 names2 :
  names1 ≡ₚ names2 -> sorted names1 = sorted names2.
Proof.
  intros Hp. apply (Sorted_unique String.le); [apply sorted_Sorted..|].
  by rewrite !sorted_Permutation.
Qed.

Lemma StronglySorted_lookup_lt {A} (R : relation A) (l : list A) i j x y :
  StronglySorted R l -> i < j -> l !! i = Some x -> l !! j = Some y -> R x y.
Proof.
  intros Hs. revert i j. induction Hs as [|a l Hs IH Hall]; intros i j Hij Hi Hj.
  - done.
  - destruct j as [|j]; [lia|]. simpl in Hj. destruct i as [|i].
    + simpl in Hi. injection Hi as ->.
      rewrite Forall_forall in Hall. apply Hall.
      by apply list_elem_of_lookup_2 in Hj.
    + simpl in Hi. apply (IH i j); [lia|done..].
Qed.

Lemma elem_of_list_label_names w data_root names name :
  name ∈ list_label_names w data_root names
  <-> name ∈ names /\ isdir w (PosixPath.join data_root name) = true.
Proof.
  unfold list_label_names. rewrite sorted_Permutation.
  rewrite list_elem_of_filter. tauto.
Qed.

Lemma NoDup_list_label_names w data_root names :
  NoDup names -> NoDup (list_label_names w data_root names).
Proof.
  intros Hnd. unfold list_label_names. rewrite sorted_Permutation.
  by apply NoDup_filter.
Qed.

Lemma Sorted_list_label_names w data_root names :
  StronglySorted String.le (list_label_names w data_root names).
Proof. apply Sorted_StronglySorted; [apply _|apply sorted_Sorted]. Qed.

(** A name is a key of [index_by_label] exactly when it is a listed
    subdirectory. *)
Lemma index_by_label_key w data_root names name :
  is_Some (make_index_by_label (list_label_names w data_root names) !! name)
  <-> name ∈ names /\ isdir w (PosixPath.join data_root name) = true.
Proof. by rewrite make_index_by_label_is_Some, elem_of_list_label_names. Qed.

(** *** [from_folder], call by call *)

Lemma from_folder_run w dirname :
  run (from_folder w dirname)
  = let data_root := abspath w dirname in
    let pattern := data_root +:+ "/*/*" in
    let paths := glob w pattern in
    if length paths =? 0 then
      ([EvGlob pattern], Raise (ValueError "Invalid input data directory"))
    else if negb (existsb has_image_suffix paths) then
      ([EvGlob pattern], Raise (ValueError "No images found under given directory"))
    else
      match _preprocess_face_dataset w paths [EvGlob pattern] with
      | (tr, Raise e) => (tr, Raise e)
      | (tr, Ok image_data) =>
          match listdir w data_root with
          | None => (tr ++ [EvListdir data_root], Raise (OSError data_root))
          | Some l =>
              let names := list_label_names w data_root (entries l) in
              match (image_labels (make_index_by_label names) paths []).2 with
              | Raise e => (tr ++ [EvListdir data_root], Raise e)
              | Ok labels =>
                  (tr ++ [EvListdir data_root; EvFromTensorSlices;
                          EvFromTensorSlices;
                          EvLogInfo (length paths) (length names)
                                    (PyStr.join ", " names)],
                   Ok (mkDataset (zip image_data (map Z.of_nat labels))
                                 (length paths) names))
              end
          end
      end.
Proof.
  unfold run, from_folder. cbv zeta. unfold bind at 1. unfold emit at 1.
  simpl app.
  destruct (length (glob w (abspath w dirname +:+ "/*/*")) =? 0); [done|].
  destruct (negb (existsb has_image_suffix (glob w (abspath w dirname +:+ "/*/*"))));
    [done|].
  unfold bind at 1.
  destruct (_preprocess_face_dataset w _ _) as [tr [image_data|e]]; [|done].
  unfold bind at 1. unfold os_listdir, bind at 1, emit at 1.
  destruct (listdir w (abspath w dirname)) as [l|]; [|done].
  unfold ret at 1. unfold bind at 1. rewrite image_labels_log.
  destruct (image_labels _ _ []).2 as [labels|e]; [|done].
  unfold bind, emit, ret, from_tensor_slices, dataset_zip, cast_int64.
  simpl. by rewrite <- !app_assoc.
Qed.

(** The ways through [from_folder]. *)
Lemma from_folder_cases w dirname :
  let data_root := abspath w dirname in
  let pattern := data_root +:+ "/*/*" in
  let paths := glob w pattern in
  (paths = []
   /\ run (from_folder w dirname)
      = ([EvGlob pattern], Raise (ValueError "Invalid input data directory")))
  \/ (paths <> [] /\ existsb has_image_suffix paths = false
      /\ run (from_folder w dirname)
         = ([EvGlob pattern], Raise (ValueError "No images found under given directory")))
  \/ (paths <> [] /\ existsb has_image_suffix paths = true
      /\ exists before path after aligned e,
           paths = before ++ path :: after
           /\ Forall2 (fun path t => align_path w path = Ok t) before aligned
           /\ align_path w path = Raise e
           /\ run (from_folder w dirname)
              = (EvGlob pattern :: EvCreateAligner :: flat_map step_events before
                 ++ rejected_events w path,
                 Raise e))
  \/ (paths <> [] /\ existsb has_image_suffix paths = true
      /\ exists aligned,
           Forall2 (fun path t => align_path w path = Ok t) paths aligned
           /\ match listdir w data_root with
              | None =>
                  run (from_folder w dirname)
                  = (seen_at_listdir pattern data_root paths, Raise (OSError data_root))
              | Some l =>
                  let names := list_label_names w data_root (entries l) in
                  run (from_folder w dirname)
                  = match (image_labels (make_index_by_label names) paths []).2 with
                    | Raise e => (seen_at_listdir pattern data_root paths, Raise e)
                    | Ok labels =>
                        (seen_at_listdir pattern data_root paths
                         ++ [EvFromTensorSlices; EvFromTensorSlices;
                             EvLogInfo (length paths) (length names)
                                       (PyStr.join ", " names)],
                         Ok (mkDataset (zip aligned (map Z.of_nat labels))
                                       (length paths) names))
                    end
              end).
Proof.
  intros data_root pattern paths.
  pose proof (from_folder_run w dirname) as Hrun. cbv zeta in Hrun.
  fold data_root in Hrun. fold pattern in Hrun. fold paths in Hrun.
  destruct (Nat.eqb_spec (length paths) 0) as [Hlen|Hlen].
  { left. by apply length_zero_iff_nil in Hlen. }
  assert (Hne : paths <> []) by (by intros E; rewrite E in Hlen).
  right. destruct (existsb has_image_suffix paths) eqn:Hany; simpl in Hrun.
  2: { left. done. }
  right.
  destruct (align_all_cases w paths)
    as [[aligned Hall]|(before & path & after & aligned & e & Hsplit & Hall & Hpath)].
  - right. split; [done|]. split; [done|]. exists aligned. split; [done|].
    rewrite (preprocess_face_dataset_Ok _ _ _ _ Hall) in Hrun. simpl app in Hrun.
    destruct (listdir w data_root) as [l|]; [|done].
    cbv zeta. rewrite Hrun.
    destruct (image_labels _ paths []).2 as [labels|e]; [|done].
    unfold seen_at_listdir. simpl. by rewrite <- !app_assoc.
  - left. split; [done|]. split; [done|].
    exists before, path, after, aligned, e. split; [done|]. split; [done|].
    split; [done|]. rewrite Hrun, Hsplit.
    by rewrite (preprocess_face_dataset_Raise _ _ _ _ _ _ _ Hall Hpath).
Qed.

End ProgramFacts.

(** ** One state of the file system: the glob against the listing *)

Section FsFacts.

Import PyStr PosixPath Fs.


Lemma startswith_sep name : contains sep name = false -> startswith "/" name = false.
Proof.
  destruct name as [|x name]; [done|]. simpl contains.
  intros [Hx _]%orb_false_iff. apply Ascii.eqb_neq in Hx.
  change (startswith "/" (String x name))
    with (if ascii_dec "/" x then String.prefix "" name else false).
  destruct (ascii_dec "/" x) as [<-|_]; [by destruct Hx|done].
Qed.





















End FsFacts.

(** ** Reading the log of a run *)

Section LogFacts.

Context {Image Tensor : Type}.
Implicit Types (w : World Image Tensor) (tr : list event) (paths : list string).

Lemma loaded_paths_app tr1 tr2 :
  loaded_paths (tr1 ++ tr2) = loaded_paths tr1 ++ loaded_paths tr2.
Proof. apply omap_app. Qed.

Lemma aligned_paths_app tr1 tr2 :
  aligned_paths (tr1 ++ tr2) = aligned_paths tr1 ++ aligned_paths tr2.
Proof. apply omap_app. Qed.

Lemma loaded_paths_steps paths : loaded_paths (flat_map step_events paths) = paths.
Proof. induction paths as [|p paths IH]; [done|]. simpl. by rewrite IH. Qed.

Lemma aligned_paths_steps paths : aligned_paths (flat_map step_events paths) = paths.
Proof. induction paths as [|p paths IH]; [done|]. simpl. by rewrite IH. Qed.

Lemma loaded_paths_rejected w path : loaded_paths (rejected_events w path) = [path].
Proof. unfold rejected_events. by destruct (create_from_file w path). Qed.



Lemma steps_no_dataset paths : EvFromTensorSlices ∉ flat_map step_events paths.
Proof.
  intros Hin%list_elem_of_In. apply in_flat_map in Hin as (p & _ & Hin).
  by destruct Hin as [?|[?|[]]].
Qed.

Lemma loaded_paths_seen pattern data_root paths :
  loaded_paths (seen_at_listdir pattern data_root paths) = paths.
Proof.
  unfold seen_at_listdir. simpl. rewrite loaded_paths_app, loaded_paths_steps.
  simpl. by rewrite app_nil_r.
Qed.

Lemma aligned_paths_seen pattern data_root paths :
  aligned_paths (seen_at_listdir pattern data_root paths) = paths.
Proof.
  unfold seen_at_listdir. simpl. rewrite aligned_paths_app, aligned_paths_steps.
  simpl. by rewrite app_nil_r.
Qed.

Lemma seen_no_dataset pattern data_root paths :
  EvFromTensorSlices ∉ seen_at_listdir pattern data_root paths.
Proof.
  unfold seen_at_listdir. intros Hin.
  do 2 (apply elem_of_cons in Hin as [?|Hin]; [done|]).
  apply elem_of_app in Hin as [Hin|Hin]; [by apply steps_no_dataset in Hin|].
  by apply list_elem_of_singleton in Hin.
Qed.

(** A path that is rejected is rejected with an exception that is neither
    [ValueError] nor [KeyError]. *)
Lemma align_path_Raise_kind w path e :
  align_path w path = Raise e ->
  (forall msg, e <> ValueError msg) /\ (forall key, e <> KeyError key).
Proof. by intros [[_ ->]|(? & _ & _ & ->)]%align_path_Raise. Qed.

(** Past the two tests on the glob, no [ValueError] is raised. *)
Lemma from_folder_no_ValueError w dirname tr msg :
  glob w (abspath w dirname +:+ "/*/*") <> [] ->
  existsb has_image_suffix (glob w (abspath w dirname +:+ "/*/*")) = true ->
  run (from_folder w dirname) <> (tr, Raise (ValueError msg)).
Proof.
  intros Hne Hany.
  destruct (from_folder_cases w dirname)
    as [[Hnil _]|[(_ & Hnone & _)|[(_ & _ & Hrej)|(_ & _ & aligned & Hall & Hrun)]]].
  - done.
  - congruence.
  - destruct Hrej as (before & path & after & al & e & _ & _ & Hpath & ->).
    apply align_path_Raise_kind in Hpath as [Hv _]. intros [= _ ->]. by apply (Hv msg).
  - destruct (listdir w (abspath w dirname)) as [l|]; [|by rewrite Hrun].
    cbv zeta in Hrun. rewrite Hrun.
    destruct (image_labels _ _ []) as [tr' [labels|e]] eqn:E; simpl; [done|].
    apply image_labels_Raise in E as (path & _ & -> & _). done.
Qed.

End LogFacts.

(** * The claims *)

Section Claims.

Context {Image Tensor : Type}.
Implicit Types (w : World Image Tensor) (tr : list event) (names paths : list string).

(** ** C4 *)

(** C4, amended. For every sequence of paths each of which can be decoded
    and shows a face to the aligner, [_preprocess_face_dataset] creates
    the aligner once, then decodes and aligns the paths one after the
    other in the order of the input, and returns one tensor per path: the
    output is as long as the input and its i-th entry is the aligned
    tensor of the i-th path. *)
Theorem preprocess_face_dataset_one_per_path w (all_image_paths : list string) :
  (forall path, path ∈ all_image_paths -> exists t, align_path w path = Ok t) ->
  one_tensor_per_path w all_image_paths
  /\ (run (_preprocess_face_dataset w all_image_paths)).1
     = EvCreateAligner :: flat_map step_events all_image_paths.
Proof.
  intros Hall. destruct (Forall2_align_total w _ Hall) as [aligned Haligned].
  unfold one_tensor_per_path, run.
  rewrite (preprocess_face_dataset_Ok _ _ _ _ Haligned). split; [|done].
  exists (EvCreateAligner :: flat_map step_events all_image_paths), aligned.
  split; [done|]. split; [symmetry; by apply Forall2_length in Haligned|].
  intros i path Hi.
  destruct (Forall2_lookup_l _ _ _ _ _ Haligned Hi) as (t & Ht & Hpath).
  by exists t.
Qed.

(** ** C3 *)

Lemma le_ne_compare (a b : string) :
  String.le a b /\ a <> b <-> (a ?= b)%string = Lt.
Proof.
  unfold String.le, String.leb. split.
  - intros [Hle Hne]. destruct (a ?= b)%string eqn:E; [|done..].
    by apply String.compare_eq_iff in E.
  - intros E. rewrite E. split; [done|]. intros ->.
    pose proof (String.compare_antisym b b) as E'. rewrite E in E'. done.
Qed.


(** ** C5 *)

(** C5. [from_folder] raises [ValueError] exactly when the glob yields no
    path, or yields paths of which none ends with [.jpg], [.jpeg] or
    [.png]. In both cases the glob is the only call made before the
    exception: no aligner is created, no image is aligned and no dataset
    is built. *)
Theorem from_folder_ValueError_iff w dirname :
  let pattern := abspath w dirname +:+ "/*/*" in
  let all_image_paths := glob w pattern in
  ((exists msg, (run (from_folder w dirname)).2 = Raise (ValueError msg))
   <-> all_image_paths = []
       \/ (all_image_paths <> []
           /\ forall fname, fname ∈ all_image_paths -> has_image_suffix fname = false))
  /\ (forall tr msg,
        run (from_folder w dirname) = (tr, Raise (ValueError msg)) ->
        tr = [EvGlob pattern]
        /\ aligned_paths tr = []
        /\ (EvCreateAligner ∉ tr)
        /\ (EvFromTensorSlices ∉ tr)).
Proof.
  intros pattern all_image_paths.
  assert (Hlog : aligned_paths [EvGlob pattern] = []
                 /\ (EvCreateAligner ∉ [EvGlob pattern])
                 /\ (EvFromTensorSlices ∉ [EvGlob pattern])).
  { split; [done|]. split; intros [?|?%elem_of_nil]%elem_of_cons; done. }
  assert (Hnone_iff : existsb has_image_suffix all_image_paths = false
                      <-> forall fname, fname ∈ all_image_paths ->
                            has_image_suffix fname = false).
  { split.
    - intros Hex fname Hin. destruct (has_image_suffix fname) eqn:Hs; [|done].
      assert (existsb has_image_suffix all_image_paths = true) as Hex'; [|congruence].
      apply existsb_exists. exists fname. by rewrite <- list_elem_of_In.
    - intros Hall. destruct (existsb has_image_suffix all_image_paths) eqn:Hex; [|done].
      apply existsb_exists in Hex as (fname & Hin%list_elem_of_In & Hs).
      rewrite (Hall _ Hin) in Hs. done. }
  pose proof (from_folder_cases w dirname) as Hcases. cbv zeta in Hcases.
  fold pattern in Hcases. fold all_image_paths in Hcases.
  destruct Hcases as [[Hnil Hrun]|[(Hne & Hany & Hrun)|Hpast]].
  - rewrite Hrun. split; [split; [by left|by eexists]|].
    intros tr msg [= <- _]. done.
  - rewrite Hrun. split.
    + split; [|by eexists]. intros _. right. split; [done|]. by apply Hnone_iff.
    + intros tr msg [= <- _]. done.
  - assert (Hne : all_image_paths <> []) by (destruct Hpast as [[? _]|[? _]]; done).
    assert (Hany : existsb has_image_suffix all_image_paths = true)
      by (destruct Hpast as [(_ & ? & _)|(_ & ? & _)]; done).
    pose proof (from_folder_no_ValueError w dirname) as Hnever.
    split.
    + split.
      * intros [msg Hmsg]. destruct (run (from_folder w dirname)) as [tr r] eqn:E.
        simpl in Hmsg. subst r. by destruct (Hnever tr msg).
      * intros [?|[_ Hnone%Hnone_iff]]; [done|congruence].
    + intros tr msg E. by destruct (Hnever tr msg).
Qed.

(** ** C6 *)


(** ** C7 *)

Lemma image_labels_in_range names paths tr labels :
  image_labels (make_index_by_label names) paths tr = (tr, Ok labels) ->
  Forall (fun label => label < length names) labels.
Proof.
  intros Hall%image_labels_Ok. induction Hall as [|path label ? ? Hl _ IH];
    constructor; [|done].
  by apply make_index_by_label_lt in Hl.
Qed.

(** The labels of a returned dataset are indices into [label_names]. *)
Lemma returned_labels_in_range w dirname tr ds image label :
  run (from_folder w dirname) = (tr, Ok ds) ->
  (image, label) ∈ dataset ds ->
  (0 <= label < Z.of_nat (length (label_names ds)))%Z.
Proof.
  destruct (from_folder_cases w dirname)
    as [[_ ->]|[(_ & _ & ->)|[(_ & _ & Hrej)|(_ & _ & aligned & Hall & Hrun)]]];
    [done..| |].
  { by destruct Hrej as (? & ? & ? & ? & ? & _ & _ & _ & ->). }
  destruct (listdir w (abspath w dirname)) as [l|]; [|by rewrite Hrun].
  cbv zeta in Hrun. rewrite Hrun.
  destruct (image_labels _ _ []) as [tr' [labels|e]] eqn:E; simpl; [|done].
  intros [= _ <-]. simpl. intros (i & Hi)%list_elem_of_lookup_1.
  rewrite image_labels_log in E. injection E as _ E.
  assert (image_labels
            (make_index_by_label (list_label_names w (abspath w dirname) (entries l)))
            (glob w (abspath w dirname +:+ "/*/*")) [] = ([], Ok labels)) as E'
    by (by rewrite image_labels_log, E).
  pose proof (image_labels_in_range _ _ _ _ E') as Hrange.
  apply lookup_zip_with_Some in Hi as (x & y & [= <- <-] & _ & Hy).
  apply list_lookup_fmap_Some in Hy as (n & -> & Hn).
  rewrite Forall_forall in Hrange.
  pose proof (Hrange n (list_elem_of_lookup_2 _ _ _ Hn)). lia.
Qed.




(** ** C8 *)

Lemma list_label_names_agree (w1 w2 : World Image Tensor) root1 root2 names1 names2 :
  NoDup names1 -> NoDup names2 ->
  (forall name,
     name ∈ names1 /\ isdir w1 (PosixPath.join root1 name) = true
     <-> name ∈ names2 /\ isdir w2 (PosixPath.join root2 name) = true) ->
  list_label_names w1 root1 names1 = list_label_names w2 root2 names2.
Proof.
  intros Hnd1 Hnd2 Hsame. unfold list_label_names. apply sorted_unique.
  apply NoDup_Permutation; [by apply NoDup_filter..|].
  intros name. rewrite !list_elem_of_filter. specialize (Hsame name). tauto.
Qed.

Lemma Forall2_align_agree (w1 w2 : World Image Tensor) paths aligned :
  (forall path, path ∈ paths -> align_path w1 path = align_path w2 path) ->
  Forall2 (fun path t => align_path w1 path = Ok t) paths aligned ->
  Forall2 (fun path t => align_path w2 path = Ok t) paths aligned.
Proof.
  intros Hagree Hall. induction Hall as [|path t rest aligned Ht _ IH]; constructor.
  - rewrite <- Hagree; [done|by left].
  - apply IH. intros p Hp. apply Hagree. by right.
Qed.

(** C8. Two runs that see the same sequence of globbed paths, listings
    with the same set of subdirectory names, in whatever order, and the
    same result of aligning each path end the same way: they raise the
    same exception or return Datasets with equal [label_names], equal
    [size] and equal sequences of (image, label) pairs. *)
Theorem from_folder_deterministic (w1 w2 : World Image Tensor) dirname1 dirname2 :
  let root1 := abspath w1 dirname1 in
  let root2 := abspath w2 dirname2 in
  glob w1 (root1 +:+ "/*/*") = glob w2 (root2 +:+ "/*/*") ->
  (exists l1 l2,
     listdir w1 root1 = Some l1 /\ listdir w2 root2 = Some l2
     /\ forall name,
          name ∈ entries l1 /\ isdir w1 (PosixPath.join root1 name) = true
          <-> name ∈ entries l2 /\ isdir w2 (PosixPath.join root2 name) = true) ->
  (forall path, path ∈ glob w1 (root1 +:+ "/*/*") ->
     align_path w1 path = align_path w2 path) ->
  (run (from_folder w1 dirname1)).2 = (run (from_folder w2 dirname2)).2
  /\ (forall tr1 ds1 tr2 ds2,
        run (from_folder w1 dirname1) = (tr1, Ok ds1) ->
        run (from_folder w2 dirname2) = (tr2, Ok ds2) ->
        label_names ds1 = label_names ds2
        /\ size ds1 = size ds2
        /\ dataset ds1 = dataset ds2).
Proof.
  intros root1 root2 Hglob (l1 & l2 & Hl1 & Hl2 & Hdirs) Halign.
  assert (Hresult : (run (from_folder w1 dirname1)).2
                    = (run (from_folder w2 dirname2)).2).
  { rewrite !from_folder_run. cbv zeta. fold root1 root2.
    rewrite <- Hglob, Hl1, Hl2.
    rewrite <- (list_label_names_agree w1 w2 root1 root2 _ _
                  (entries_NoDup l1) (entries_NoDup l2) Hdirs).
    set (paths := glob w1 (root1 +:+ "/*/*")) in *.
    destruct (length paths =? 0); [done|].
    destruct (negb (existsb has_image_suffix paths)); [done|].
    destruct (align_all_cases w1 paths)
      as [[aligned Hall]|(before & path & after & aligned & e & Hsplit & Hall & Hpath)].
    - rewrite (preprocess_face_dataset_Ok _ _ _ _ Hall).
      rewrite (preprocess_face_dataset_Ok _ _ _ _
                 (Forall2_align_agree _ _ _ _ Halign Hall)).
      by destruct (image_labels _ paths []).2.
    - rewrite Hsplit.
      rewrite (preprocess_face_dataset_Raise _ _ _ _ _ _ _ Hall Hpath).
      assert (Hbefore : forall p, p ∈ before -> align_path w1 p = align_path w2 p).
      { intros p Hp. apply Halign. rewrite Hsplit. apply elem_of_app. by left. }
      assert (Hpath2 : align_path w2 path = Raise e).
      { rewrite <- Halign; [done|]. rewrite Hsplit. apply elem_of_app. right. by left. }
      by rewrite (preprocess_face_dataset_Raise _ _ _ _ _ _ _
                    (Forall2_align_agree _ _ _ _ Hbefore Hall) Hpath2). }
  split; [exact Hresult|].
  intros tr1 ds1 tr2 ds2 E1 E2. rewrite E1, E2 in Hresult. simpl in Hresult.
  by injection Hresult as ->.
Qed.

(** ** C2 *)

(** What a run that returns has gone through. *)
Lemma from_folder_Ok w dirname tr ds :
  run (from_folder w dirname) = (tr, Ok ds) ->
  let data_root := abspath w dirname in
  let paths := glob w (data_root +:+ "/*/*") in
  exists aligned l labels,
    Forall2 (fun path t => align_path w path = Ok t) paths aligned
    /\ listdir w data_root = Some l
    /\ Forall2 (fun path label =>
                  make_index_by_label (list_label_names w data_root (entries l))
                  !! parent_name path = Some label)
               paths labels
    /\ paths <> []
    /\ existsb has_image_suffix paths = true
    /\ ds = mkDataset (zip aligned (map Z.of_nat labels)) (length paths)
                      (list_label_names w data_root (entries l)).
Proof.
  intros Hrun data_root paths.
  pose proof (from_folder_cases w dirname) as Hcases. cbv zeta in Hcases.
  fold data_root in Hcases. fold paths in Hcases.
  destruct Hcases
    as [[_ E]|[(_ & _ & E)|[(_ & _ & Hrej)|(Hne & Hany & aligned & Hall & E)]]];
    [congruence..| |].
  { destruct Hrej as (? & ? & ? & ? & ? & _ & _ & _ & E). congruence. }
  destruct (listdir w data_root) as [l|]; [|congruence].
  cbv zeta in E. rewrite E in Hrun.
  destruct (image_labels _ paths []) as [tr' [labels|e]] eqn:El; simpl in Hrun; [|done].
  injection Hrun as _ <-. exists aligned, l, labels.
  rewrite image_labels_log in El. injection El as _ El.
  pose proof (proj1 (image_labels_Ok _ _ [] _)
                (eq_trans (image_labels_log _ _ _) (f_equal _ El))) as Hlabels.
  done.
Qed.

(** C2. The label of a globbed path is the position of the name of its
    parent directory in the sorted list of the subdirectory names of the
    data root: a returned dataset has for [label_names] the sorted,
    duplicate-free list of the listed names that are directories, and its
    i-th label is the one position at which that list holds the parent
    directory name of the i-th path. *)
Theorem from_folder_label_is_position w dirname tr ds :
  let data_root := abspath w dirname in
  let all_image_paths := glob w (data_root +:+ "/*/*") in
  run (from_folder w dirname) = (tr, Ok ds) ->
  exists l,
    listdir w data_root = Some l
    /\ Sorted String.le (label_names ds)
    /\ NoDup (label_names ds)
    /\ (forall name,
          name ∈ label_names ds
          <-> name ∈ entries l /\ isdir w (PosixPath.join data_root name) = true)
    /\ forall i path, all_image_paths !! i = Some path ->
         exists image label,
           dataset ds !! i = Some (image, Z.of_nat label)
           /\ label_names ds !! label = Some (parent_name path)
           /\ forall index,
                label_names ds !! index = Some (parent_name path) ->
                index = label.
Proof.
  intros data_root all_image_paths Hrun.
  destruct (from_folder_Ok _ _ _ _ Hrun)
    as (aligned & l & labels & Hall & Hl & Hlabels & _ & _ & ->).
  fold data_root in Hl, Hlabels. fold all_image_paths in Hall, Hlabels.
  pose proof (NoDup_list_label_names w data_root _ (entries_NoDup l)) as Hnd.
  exists l. simpl. split; [done|]. split; [apply sorted_Sorted|]. split; [done|].
  split; [intros; apply elem_of_list_label_names|].
  intros i path Hi.
  destruct (Forall2_lookup_l _ _ _ _ _ Hall Hi) as (image & Himage & _).
  destruct (Forall2_lookup_l _ _ _ _ _ Hlabels Hi) as (label & Hlabel & Hidx).
  exists image, label. split; [|split].
  - apply lookup_zip_with_Some. exists image, (Z.of_nat label).
    split; [done|]. split; [done|]. by apply list_lookup_fmap_Some_2.
  - by apply make_index_by_label_NoDup in Hidx.
  - intros index Hindex. apply (make_index_by_label_NoDup _ _ _ Hnd) in Hindex.
    congruence.
Qed.

(** ** C1 *)

(** C1, amended. When the glob yields at least one path, at least one
    path ends with [.jpg], [.jpeg] or [.png], every globbed path can be
    decoded and shows a face to the aligner, and the parent directory name
    of every globbed path is a listed subdirectory of the data root,
    [from_folder] returns a [Dataset] whose i-th element pairs the
    aligned tensor of the i-th globbed path with the label index of that
    path's parent directory, and whose [size] is the number of globbed
    paths. *)
Theorem from_folder_returns_zip w dirname :
  let data_root := abspath w dirname in
  let all_image_paths := glob w (data_root +:+ "/*/*") in
  all_image_paths <> [] ->
  existsb has_image_suffix all_image_paths = true ->
  (forall path, path ∈ all_image_paths -> exists t, align_path w path = Ok t) ->
  (forall path, path ∈ all_image_paths ->
     is_subdirectory w data_root (parent_name path)) ->
  returns_zipped_dataset w dirname.
Proof.
  intros data_root all_image_paths Hne Hany Halign Hdirs.
  pose proof (from_folder_cases w dirname) as Hcases. cbv zeta in Hcases.
  fold data_root in Hcases. fold all_image_paths in Hcases.
  destruct Hcases
    as [[? _]|[(_ & ? & _)|[(_ & _ & Hrej)|(_ & _ & aligned & Hall & Hrun)]]];
    [done|congruence| |].
  { destruct Hrej as (before & path & after & ? & e & Hsplit & _ & Hpath & _).
    destruct (Halign path) as [t Ht]; [|congruence].
    rewrite Hsplit. apply elem_of_app. right. by left. }
  assert (exists l, listdir w data_root = Some l) as [l Hl].
  { destruct all_image_paths as [|p ?]; [done|].
    destruct (Hdirs p) as (l & Hl & _); [by left|]. by exists l. }
  rewrite Hl in Hrun. cbv zeta in Hrun.
  assert (Hkeys : forall path, path ∈ all_image_paths ->
            is_Some (make_index_by_label (list_label_names w data_root (entries l))
                     !! parent_name path)).
  { intros path Hin. apply index_by_label_key.
    destruct (Hdirs path Hin) as (l' & Hl' & ? & ?). by assert (l' = l) as -> by congruence. }
  destruct (image_labels_total _ all_image_paths [] Hkeys) as [labels Hlabels].
  pose proof (proj1 (image_labels_Ok _ _ _ _) Hlabels) as Hforall.
  rewrite Hlabels in Hrun. simpl in Hrun.
  unfold returns_zipped_dataset. cbv zeta. fold data_root. fold all_image_paths.
  rewrite Hrun. eexists _, _. split; [done|]. simpl. split; [done|]. split.
  { apply Forall2_length in Hall, Hforall. rewrite length_zip_with, length_map. lia. }
  intros i path Hi.
  destruct (Forall2_lookup_l _ _ _ _ _ Hall Hi) as (t & Ht & Hpath).
  destruct (Forall2_lookup_l _ _ _ _ _ Hforall Hi) as (label & Hlabel & Hidx).
  exists t, label. split; [|done].
  apply lookup_zip_with_Some. exists t, (Z.of_nat label).
  split; [done|]. split; [done|]. by apply list_lookup_fmap_Some_2.
Qed.

End Claims.

(** * The claims on the example directories *)

Section Witnesses.

Import Examples.

(** Case analysis on membership in an explicit list. *)
Ltac list_cases H :=
  repeat (apply elem_of_cons in H as [->|H]); [..|by apply elem_of_nil in H].

Lemma styles_aligns path : exists t, align_path styles path = Ok t.
Proof. by eexists. Defined.

Lemma styles_subdirectory_a : is_subdirectory styles "/data" "a".
Proof.
  eexists. split; [reflexivity|]. split; [|reflexivity].
  simpl. do 2 right. left.
Defined.

Lemma styles_subdirectory_b : is_subdirectory styles "/data" "b".
Proof. eexists. split; [reflexivity|]. split; [|reflexivity]. simpl. left. Defined.

Lemma styles_parents_listed path :
  path ∈ glob styles "/data/*/*" ->
  is_subdirectory styles "/data" (parent_name path).
Proof.
  intros Hin. simpl in Hin. list_cases Hin;
    [apply styles_subdirectory_b|apply styles_subdirectory_a
    |apply styles_subdirectory_b].
Defined.

Lemma styles_run :
  run (from_folder styles "/data")
  = ([EvGlob "/data/*/*"; EvCreateAligner;
      EvCreateFromFile "/data/b/1.jpg"; EvAlign "/data/b/1.jpg";
      EvCreateFromFile "/data/a/2.png"; EvAlign "/data/a/2.png";
      EvCreateFromFile "/data/b/3.JPG"; EvAlign "/data/b/3.JPG";
      EvListdir "/data"; EvFromTensorSlices; EvFromTensorSlices;
      EvLogInfo 3 2 "a, b"],
     Ok (mkDataset [(aligned "/data/b/1.jpg", 1%Z); (aligned "/data/a/2.png", 0%Z);
                    (aligned "/data/b/3.JPG", 1%Z)]
                   3 ["a"; "b"])).
Proof. vm_compute. reflexivity. Defined.


Lemma from_folder_returns_zip_witness :
  glob styles "/data/*/*" <> []
  /\ existsb has_image_suffix (glob styles "/data/*/*") = true
  /\ (forall path, path ∈ glob styles "/data/*/*" ->
        exists t, align_path styles path = Ok t)
  /\ (forall path, path ∈ glob styles "/data/*/*" ->
        is_subdirectory styles "/data" (parent_name path))
  /\ returns_zipped_dataset styles "/data".
Proof.
  assert (H1 : glob styles "/data/*/*" <> []) by done.
  assert (H2 : existsb has_image_suffix (glob styles "/data/*/*") = true)
    by reflexivity.
  assert (H3 : forall path, path ∈ glob styles "/data/*/*" ->
                 exists t, align_path styles path = Ok t)
    by (intros path _; apply styles_aligns).
  exact (conj H1 (conj H2 (conj H3 (conj styles_parents_listed
           (from_folder_returns_zip styles "/data" H1 H2 H3 styles_parents_listed))))).
Defined.

(** C1 as stated fails: the directory [a] was matched by the glob but is
    no longer listed, the premises of the claim hold, and [from_folder]
    raises [KeyError] instead of returning a [Dataset]. *)
Lemma from_folder_renamed_directory_raises :
  glob renamed "/data/*/*" <> []
  /\ existsb has_image_suffix (glob renamed "/data/*/*") = true
  /\ run (from_folder renamed "/data")
     = ([EvGlob "/data/*/*"; EvCreateAligner; EvCreateFromFile "/data/a/1.jpg";
         EvAlign "/data/a/1.jpg"; EvListdir "/data"],
        Raise (KeyError "a"))
  /\ ~ returns_zipped_dataset renamed "/data".
Proof.
  assert (E : run (from_folder renamed "/data")
              = ([EvGlob "/data/*/*"; EvCreateAligner;
                  EvCreateFromFile "/data/a/1.jpg"; EvAlign "/data/a/1.jpg";
                  EvListdir "/data"],
                 Raise (KeyError "a"))) by (vm_compute; reflexivity).
  split; [done|]. split; [reflexivity|]. split; [exact E|].
  intros (tr & ds & Hrun & _). rewrite E in Hrun. discriminate.
Qed.

Lemma from_folder_label_is_position_witness :
  run (from_folder styles "/data")
  = ([EvGlob "/data/*/*"; EvCreateAligner;
      EvCreateFromFile "/data/b/1.jpg"; EvAlign "/data/b/1.jpg";
      EvCreateFromFile "/data/a/2.png"; EvAlign "/data/a/2.png";
      EvCreateFromFile "/data/b/3.JPG"; EvAlign "/data/b/3.JPG";
      EvListdir "/data"; EvFromTensorSlices; EvFromTensorSlices;
      EvLogInfo 3 2 "a, b"],
     Ok (mkDataset [(aligned "/data/b/1.jpg", 1%Z); (aligned "/data/a/2.png", 0%Z);
                    (aligned "/data/b/3.JPG", 1%Z)]
                   3 ["a"; "b"]))
  /\ exists l,
       listdir styles "/data" = Some l
       /\ Sorted String.le ["a"; "b"]
       /\ NoDup ["a"; "b"]
       /\ (forall name,
             name ∈ ["a"; "b"]
             <-> name ∈ entries l /\ isdir styles (PosixPath.join "/data" name) = true)
       /\ forall i path, glob styles "/data/*/*" !! i = Some path ->
            exists image label,
              [(aligned "/data/b/1.jpg", 1%Z); (aligned "/data/a/2.png", 0%Z);
               (aligned "/data/b/3.JPG", 1%Z)] !! i = Some (image, Z.of_nat label)
              /\ ["a"; "b"] !! label = Some (parent_name path)
              /\ forall index,
                   ["a"; "b"] !! index = Some (parent_name path) -> index = label.
Proof.
  exact (conj styles_run
           (from_folder_label_is_position styles "/data" _ _ styles_run)).
Defined.


Lemma preprocess_face_dataset_one_per_path_witness :
  (forall path, path ∈ glob styles "/data/*/*" ->
     exists t, align_path styles path = Ok t)
  /\ one_tensor_per_path styles (glob styles "/data/*/*")
  /\ (run (_preprocess_face_dataset styles (glob styles "/data/*/*"))).1
     = EvCreateAligner :: flat_map step_events (glob styles "/data/*/*").
Proof.
  assert (H : forall path, path ∈ glob styles "/data/*/*" ->
                exists t, align_path styles path = Ok t)
    by (intros path _; apply styles_aligns).
  exact (conj H (preprocess_face_dataset_one_per_path styles _ H)).
Defined.

(** C4 as stated fails: the first path is a text file, which
    [create_from_file] cannot decode; the loop raises [RuntimeError] at
    it and returns no list. *)
Lemma preprocess_face_dataset_rejects_text_file :
  run (_preprocess_face_dataset with_notes ["/data/b/notes.txt"; "/data/b/1.jpg"])
  = ([EvCreateAligner; EvCreateFromFile "/data/b/notes.txt"],
     Raise (RuntimeError "/data/b/notes.txt"))
  /\ ~ one_tensor_per_path with_notes ["/data/b/notes.txt"; "/data/b/1.jpg"].
Proof.
  assert (E : run (_preprocess_face_dataset with_notes
                     ["/data/b/notes.txt"; "/data/b/1.jpg"])
              = ([EvCreateAligner; EvCreateFromFile "/data/b/notes.txt"],
                 Raise (RuntimeError "/data/b/notes.txt")))
    by (vm_compute; reflexivity).
  split; [exact E|]. intros (tr & images & Hrun & _). rewrite E in Hrun. discriminate.
Qed.

Lemma from_folder_ValueError_iff_witness :
  glob empty_folder "/data/*/*" = []
  /\ (exists msg, (run (from_folder empty_folder "/data")).2 = Raise (ValueError msg))
  /\ glob no_image "/data/*/*" = ["/data/a/notes.JPG"]
  /\ (exists msg, (run (from_folder no_image "/data")).2 = Raise (ValueError msg))
  /\ (run (from_folder no_image "/data")).1 = [EvGlob "/data/*/*"]
  /\ aligned_paths (run (from_folder no_image "/data")).1 = [].
Proof.
  assert (H1 : glob empty_folder "/data/*/*" = []) by reflexivity.
  assert (H2 : glob no_image "/data/*/*" <> []
               /\ forall fname, fname ∈ glob no_image "/data/*/*" ->
                    has_image_suffix fname = false).
  { split; [done|]. intros fname Hin. simpl in Hin. list_cases Hin. reflexivity. }
  pose proof (proj2 (proj1 (from_folder_ValueError_iff empty_folder "/data"))
                (or_introl H1)) as Hempty.
  pose proof (proj2 (proj1 (from_folder_ValueError_iff no_image "/data"))
                (or_intror H2)) as Hnone.
  split; [exact H1|]. split; [exact Hempty|]. split; [reflexivity|].
  split; [exact Hnone|].
  destruct (run (from_folder no_image "/data")) as [tr r] eqn:E.
  destruct Hnone as [msg Hmsg]. simpl in Hmsg. subst r.
  destruct (proj2 (from_folder_ValueError_iff no_image "/data") tr msg E)
    as (Htr & Hnoalign & _).
  split; [exact Htr|exact Hnoalign].
Defined.





Lemma styles_again_same_subdirectories name :
  name ∈ ["b"; "readme"; "a"] /\ isdir styles (PosixPath.join "/data" name) = true
  <-> name ∈ ["a"; "b"] /\ isdir styles_again (PosixPath.join "/data" name) = true.
Proof.
  split.
  - intros [Hin Hdir]. split; [|done]. list_cases Hin.
    + right. left.
    + done.
    + left.
  - intros [Hin Hdir]. split; [|done]. list_cases Hin.
    + do 2 right. left.
    + left.
Defined.

Lemma from_folder_deterministic_witness :
  glob styles "/data/*/*" = glob styles_again "/data/*/*"
  /\ option_map entries (listdir styles "/data") = Some ["b"; "readme"; "a"]
  /\ option_map entries (listdir styles_again "/data") = Some ["a"; "b"]
  /\ (run (from_folder styles "/data")).2 = (run (from_folder styles_again "data")).2.
Proof.
  assert (H1 : glob styles "/data/*/*" = glob styles_again "/data/*/*")
    by reflexivity.
  assert (H3 : forall path, path ∈ glob styles "/data/*/*" ->
                 align_path styles path = align_path styles_again path)
    by reflexivity.
  split; [exact H1|]. split; [reflexivity|]. split; [reflexivity|].
  apply (from_folder_deterministic styles styles_again "/data" "data" H1); [|exact H3].
  exists (names ["b"; "readme"; "a"] I), (names ["a"; "b"] I).
  split; [reflexivity|]. split; [reflexivity|].
  exact styles_again_same_subdirectories.
Defined.

End Witnesses.


(** * Further properties of the code *)

(** ** Outcomes of [from_folder] *)

Section Outcomes.

Context {Image Tensor : Type}.
Implicit Types (w : World Image Tensor) (tr : list event) (names paths : list string).

Lemma compare_refl (s : string) : (s ?= s)%string = Eq.
Proof.
  pose proof (String.compare_antisym s s) as H.
  destruct (s ?= s)%string; done.
Qed.

Lemma Forall2_align_elem w paths (aligned : list Tensor) path :
  Forall2 (fun path t => align_path w path = Ok t) paths aligned ->
  path ∈ paths -> exists t, align_path w path = Ok t.
Proof.
  intros Hall (i & Hi)%list_elem_of_lookup_1.
  destruct (Forall2_lookup_l _ _ _ _ _ Hall Hi) as (t & _ & Ht). by exists t.
Qed.

(** X1. [from_folder] returns a [Dataset] exactly when the glob yields a
    path, some globbed path ends with [.jpg], [.jpeg] or [.png], every
    globbed path can be decoded and shows a face to the aligner, and the
    parent directory name of every globbed path is a listed subdirectory
    of the data root. *)
Theorem from_folder_returns_iff w dirname :
  let data_root := abspath w dirname in
  let all_image_paths := glob w (data_root +:+ "/*/*") in
  (exists tr ds, run (from_folder w dirname) = (tr, Ok ds))
  <-> all_image_paths <> []
      /\ existsb has_image_suffix all_image_paths = true
      /\ (forall path, path ∈ all_image_paths -> exists t, align_path w path = Ok t)
      /\ (forall path, path ∈ all_image_paths ->
            is_subdirectory w data_root (parent_name path)).
Proof.
  intros data_root all_image_paths. split.
  - intros (tr & ds & Hrun).
    destruct (from_folder_Ok _ _ _ _ Hrun)
      as (aligned & l & labels & Hall & Hl & Hlabels & Hne & Hany & _).
    fold data_root in Hl, Hlabels. fold all_image_paths in Hall, Hlabels, Hne, Hany.
    split; [done|]. split; [done|]. split.
    + intros path Hin. exact (Forall2_align_elem w _ aligned path Hall Hin).
    + intros path (i & Hi)%list_elem_of_lookup_1.
      destruct (Forall2_lookup_l _ _ _ _ _ Hlabels Hi) as (label & _ & Hidx).
      exists l. split; [done|]. apply index_by_label_key. by eexists.
  - intros (Hne & Hany & Halign & Hdirs).
    destruct (Forall2_align_total w _ Halign) as [aligned Hall].
    assert (exists l, listdir w data_root = Some l) as [l Hl].
    { destruct all_image_paths as [|p ?]; [done|].
      destruct (Hdirs p) as (l & Hl & _); [by left|]. by exists l. }
    assert (Hkeys : forall path, path ∈ all_image_paths ->
              is_Some (make_index_by_label (list_label_names w data_root (entries l))
                       !! parent_name path)).
    { intros path Hin. apply index_by_label_key.
      destruct (Hdirs path Hin) as (l' & Hl' & ? & ?).
      by assert (l' = l) as -> by congruence. }
    destruct (image_labels_total _ all_image_paths [] Hkeys) as [labels Hlabels].
    rewrite from_folder_run. cbv zeta. fold data_root. fold all_image_paths.
    rewrite Hany. destruct (Nat.eqb_spec (length all_image_paths) 0) as [Hlen|_].
    { by apply length_zero_iff_nil in Hlen. }
    simpl negb. cbv iota.
    rewrite (preprocess_face_dataset_Ok _ _ _ _ Hall), Hl, Hlabels. simpl.
    by eexists _, _.
Qed.

(** X2. [from_folder] raises [KeyError] exactly when the two tests on the
    glob pass, every globbed path can be decoded and aligned, the data
    root can be listed, and some globbed path has a parent directory name
    that is not a listed subdirectory; the key of the exception is the
    parent directory name of the first such path. By then every globbed
    path has been aligned and the directory listed, and no dataset has
    been built. *)
Theorem from_folder_KeyError_first_missing w dirname :
  let data_root := abspath w dirname in
  let pattern := data_root +:+ "/*/*" in
  let all_image_paths := glob w pattern in
  (forall key,
     (exists tr, run (from_folder w dirname) = (tr, Raise (KeyError key)))
     <-> all_image_paths <> []
         /\ existsb has_image_suffix all_image_paths = true
         /\ (forall path, path ∈ all_image_paths ->
               exists t, align_path w path = Ok t)
         /\ exists l before path after,
              listdir w data_root = Some l
              /\ all_image_paths = before ++ path :: after
              /\ (forall p, p ∈ before ->
                    parent_name p ∈ entries l
                    /\ isdir w (PosixPath.join data_root (parent_name p)) = true)
              /\ ~ (parent_name path ∈ entries l
                    /\ isdir w (PosixPath.join data_root (parent_name path)) = true)
              /\ key = parent_name path)
  /\ (forall tr key,
        run (from_folder w dirname) = (tr, Raise (KeyError key)) ->
        tr = seen_at_listdir pattern data_root all_image_paths
        /\ loaded_paths tr = all_image_paths
        /\ aligned_paths tr = all_image_paths
        /\ (EvFromTensorSlices ∉ tr)).
Proof.
  intros data_root pattern all_image_paths.
  assert (Hfirst : forall l key,
    (image_labels (make_index_by_label (list_label_names w data_root (entries l)))
       all_image_paths []).2 = Raise (KeyError key)
    <-> exists before path after,
          all_image_paths = before ++ path :: after
          /\ (forall p, p ∈ before ->
                parent_name p ∈ entries l
                /\ isdir w (PosixPath.join data_root (parent_name p)) = true)
          /\ ~ (parent_name path ∈ entries l
                /\ isdir w (PosixPath.join data_root (parent_name path)) = true)
          /\ key = parent_name path).
  { intros l key.
    destruct (image_labels _ all_image_paths []) as [tr' r] eqn:E. simpl. split.
    - intros ->. apply image_labels_Raise_first in E
        as (_ & before & path & after & Hsplit & Hb & Hp & Hk).
      exists before, path, after. split; [done|]. split; [|split; [|done]].
      + intros p Hin. by apply index_by_label_key, Hb.
      + intros [? ?]%index_by_label_key. congruence.
    - intros (before & path & after & Hsplit & Hb & Hp & Hk).
      assert (image_labels
                (make_index_by_label (list_label_names w data_root (entries l)))
                all_image_paths [] = ([], Raise (KeyError key))) as E'.
      { apply image_labels_Raise_first. split; [done|].
        exists before, path, after. split; [done|]. split; [|split; [|done]].
        - intros p Hin. by apply index_by_label_key, Hb.
        - apply eq_None_not_Some. by rewrite index_by_label_key. }
      rewrite E' in E. by injection E as _ <-. }
  pose proof (from_folder_cases w dirname) as Hcases. cbv zeta in Hcases.
  fold data_root in Hcases. fold pattern in Hcases. fold all_image_paths in Hcases.
  destruct Hcases
    as [[Hnil ->]|[(Hne & Hany & ->)|[(Hne & Hany & Hrej)|(Hne & Hany & aligned & Hall & Hrun)]]].
  - split; [|done]. intros key. split; [by intros [? ?]|]. by intros [? _].
  - split; [|done]. intros key. split; [by intros [? ?]|].
    intros (_ & ? & _). congruence.
  - destruct Hrej as (before & path & after & al & e & Hsplit & _ & Hpath & ->).
    pose proof (align_path_Raise_kind _ _ _ Hpath) as [_ Hk].
    split.
    + intros key. split.
      * intros [tr [= _ ->]]. by destruct (Hk key).
      * intros (_ & _ & Halign & _). destruct (Halign path) as [t Ht]; [|congruence].
        rewrite Hsplit. apply elem_of_app. right. by left.
    + intros tr key [= _ ->]. by destruct (Hk key).
  - destruct (listdir w data_root) as [l|] eqn:Hl.
    2: { rewrite Hrun. split.
         - intros key. split; [by intros [? ?]|]. by intros (_ & _ & _ & ? & ? & ? & ? & ? & _).
         - done. }
    cbv zeta in Hrun. rewrite Hrun. split.
    + intros key. destruct (image_labels _ all_image_paths []).2 as [labels|e] eqn:E.
      * split; [by intros [? ?]|].
        intros (_ & _ & _ & l' & before & path & after & [= <-] & Hrest).
        assert ((image_labels
                   (make_index_by_label (list_label_names w data_root (entries l)))
                   all_image_paths []).2 = Raise (KeyError key)) as E'
          by (apply Hfirst; by exists before, path, after).
        congruence.
      * split.
        -- intros [tr [= _ ->]]. split; [done|]. split; [done|].
           split; [intros path Hin; exact (Forall2_align_elem w _ aligned path Hall Hin)|].
           apply Hfirst in E as (before & path & after & Hrest).
           by exists l, before, path, after.
        -- intros (_ & _ & _ & l' & before & path & after & [= <-] & Hrest).
           assert ((image_labels
                      (make_index_by_label (list_label_names w data_root (entries l)))
                      all_image_paths []).2 = Raise (KeyError key)) as E'
             by (apply Hfirst; by exists before, path, after).
           rewrite E in E'. injection E' as ->. by eexists.
    + intros tr key.
      destruct (image_labels _ all_image_paths []).2 as [labels|e]; [done|].
      intros [= <- _]. split; [done|].
      split; [apply loaded_paths_seen|]. split; [apply aligned_paths_seen|].
      apply seen_no_dataset.
Qed.

(** X3. The message of the [ValueError] tells the two causes apart:
    "Invalid input data directory" is raised exactly when the glob yields
    no path, "No images found under given directory" exactly when it
    yields paths none of which has a supported suffix. *)
Theorem from_folder_ValueError_messages w dirname :
  let all_image_paths := glob w (abspath w dirname +:+ "/*/*") in
  ((run (from_folder w dirname)).2
     = Raise (ValueError "Invalid input data directory")
   <-> all_image_paths = [])
  /\ ((run (from_folder w dirname)).2
        = Raise (ValueError "No images found under given directory")
      <-> all_image_paths <> []
          /\ existsb has_image_suffix all_image_paths = false).
Proof.
  intros all_image_paths.
  pose proof (from_folder_cases w dirname) as Hcases. cbv zeta in Hcases.
  fold all_image_paths in Hcases.
  destruct Hcases as [[Hnil ->]|[(Hne & Hany & ->)|Hpast]]; simpl.
  - split; [done|]. split; [done|]. by intros [? _].
  - split; [done|]. split; [done|]. done.
  - assert (Hne : all_image_paths <> []) by (destruct Hpast as [[? _]|[? _]]; done).
    assert (Hany : existsb has_image_suffix all_image_paths = true)
      by (destruct Hpast as [(_ & ? & _)|(_ & ? & _)]; done).
    assert (Hnever : forall msg,
      (run (from_folder w dirname)).2 <> Raise (ValueError msg)).
    { intros msg E. destruct (run (from_folder w dirname)) as [tr r] eqn:E'.
      simpl in E. subst r. by apply (from_folder_no_ValueError w dirname tr msg). }
    split; split; try done.
    + intros E. by destruct (Hnever _ E).
    + intros E. by destruct (Hnever _ E).
    + intros [_ ?]. congruence.
Qed.

(** X4. Every [Dataset] that [from_folder] returns is well formed: [size]
    is the number of its elements and is positive, the images are the
    aligned globbed paths in order, [label_names] is not empty, sorted
    and free of duplicates, and every label is a valid index into
    [label_names]. *)
Theorem returned_dataset_well_formed w dirname tr ds :
  run (from_folder w dirname) = (tr, Ok ds) ->
  0 < size ds
  /\ size ds = length (dataset ds)
  /\ Forall2 (fun path image => align_path w path = Ok image)
             (glob w (abspath w dirname +:+ "/*/*")) (map fst (dataset ds))
  /\ label_names ds <> []
  /\ Sorted String.le (label_names ds)
  /\ NoDup (label_names ds)
  /\ Forall (fun element =>
               (0 <= element.2 < Z.of_nat (length (label_names ds)))%Z)
            (dataset ds).
Proof.
  intros Hrun.
  pose proof (fun image label => returned_labels_in_range w dirname tr ds image label Hrun)
    as Hrange.
  destruct (from_folder_Ok _ _ _ _ Hrun)
    as (aligned & l & labels & Hall & Hl & Hlabels & Hne & Hany & ->).
  set (paths := glob w (abspath w dirname +:+ "/*/*")) in *.
  set (names := list_label_names w (abspath w dirname) (entries l)) in *.
  simpl in *.
  pose proof (Forall2_length _ _ _ Hall) as Hlen1.
  pose proof (Forall2_length _ _ _ Hlabels) as Hlen2.
  assert (Hpos : 0 < length paths) by (destruct paths; [done|simpl; lia]).
  assert (Hzip : length (zip aligned (map Z.of_nat labels)) = length paths).
  { rewrite length_zip_with, length_map. lia. }
  split; [done|]. split; [done|]. split.
  { rewrite fst_zip by (rewrite length_map; lia). done. }
  split.
  { destruct (zip aligned (map Z.of_nat labels)) as [|[image label] rest] eqn:E.
    - simpl in Hzip. lia.
    - intros Hnil. specialize (Hrange image label (list_elem_of_here _ _)).
      rewrite Hnil in Hrange. simpl in Hrange. lia. }
  split; [apply sorted_Sorted|].
  split; [apply NoDup_list_label_names, entries_NoDup|].
  apply Forall_forall. intros [image label] Hin. exact (Hrange image label Hin).
Qed.

(** X5. In a returned dataset the labels order the images as the names of
    their parent directories do: comparing the labels of two elements
    gives what comparing the parent directory names of their paths gives.
    Two images have the same label exactly when they lie in directories
    of the same name. *)
Theorem labels_follow_directory_names w dirname tr ds i j path_i path_j :
  let all_image_paths := glob w (abspath w dirname +:+ "/*/*") in
  run (from_folder w dirname) = (tr, Ok ds) ->
  all_image_paths !! i = Some path_i ->
  all_image_paths !! j = Some path_j ->
  exists image_i image_j label_i label_j,
    align_path w path_i = Ok image_i
    /\ align_path w path_j = Ok image_j
    /\ dataset ds !! i = Some (image_i, label_i)
    /\ dataset ds !! j = Some (image_j, label_j)
    /\ (label_i ?= label_j)%Z = (parent_name path_i ?= parent_name path_j)%string
    /\ (label_i = label_j <-> parent_name path_i = parent_name path_j).
Proof.
  intros paths Hrun Hi Hj.
  destruct (from_folder_Ok _ _ _ _ Hrun)
    as (aligned & l & labels & Hall & Hl & Hlabels & _ & _ & ->).
  fold paths in Hall, Hlabels.
  set (names := list_label_names w (abspath w dirname) (entries l)) in *.
  destruct (Forall2_lookup_l _ _ _ _ _ Hall Hi) as (image_i & Himage_i & Hok_i).
  destruct (Forall2_lookup_l _ _ _ _ _ Hall Hj) as (image_j & Himage_j & Hok_j).
  destruct (Forall2_lookup_l _ _ _ _ _ Hlabels Hi) as (a & Ha & Hidx_a).
  destruct (Forall2_lookup_l _ _ _ _ _ Hlabels Hj) as (b & Hb & Hidx_b).
  pose proof (NoDup_list_label_names w (abspath w dirname) _ (entries_NoDup l)) as Hnd.
  pose proof (Sorted_list_label_names w (abspath w dirname) (entries l)) as Hss.
  fold names in Hnd, Hss.
  apply (make_index_by_label_NoDup _ _ _ Hnd) in Hidx_a, Hidx_b.
  assert (Hcmp : (Z.of_nat a ?= Z.of_nat b)%Z
                 = (parent_name path_i ?= parent_name path_j)%string).
  { rewrite Nat2Z.inj_compare.
    destruct (Nat.compare_spec a b) as [->|Hlt|Hgt].
    - assert (parent_name path_i = parent_name path_j) as -> by congruence.
      symmetry. apply compare_refl.
    - symmetry. apply le_ne_compare. split.
      + by apply (StronglySorted_lookup_lt _ _ _ _ _ _ Hss Hlt).
      + intros Heq. rewrite Heq in Hidx_a.
        pose proof (NoDup_lookup _ _ _ _ Hnd Hidx_a Hidx_b). lia.
    - assert ((parent_name path_j ?= parent_name path_i)%string = Lt) as Hlt.
      { apply le_ne_compare. split.
        + by apply (StronglySorted_lookup_lt _ _ _ _ _ _ Hss Hgt).
        + intros Heq. rewrite Heq in Hidx_b.
          pose proof (NoDup_lookup _ _ _ _ Hnd Hidx_a Hidx_b). lia. }
      rewrite String.compare_antisym, Hlt. done. }
  exists image_i, image_j, (Z.of_nat a), (Z.of_nat b).
  split; [done|]. split; [done|]. simpl. split; [|split; [|split]].
  - apply lookup_zip_with_Some. eexists _, _.
    split; [done|]. split; [done|]. by apply list_lookup_fmap_Some_2.
  - apply lookup_zip_with_Some. eexists _, _.
    split; [done|]. split; [done|]. by apply list_lookup_fmap_Some_2.
  - exact Hcmp.
  - split.
    + intros Heq%Nat2Z.inj. subst b. congruence.
    + intros Heq. f_equal. rewrite Heq in Hidx_a.
      apply (NoDup_lookup _ _ _ _ Hnd Hidx_a Hidx_b).
Qed.

End Outcomes.

(** ** File names and directory names in [from_folder] *)

Section Names.

Import PyStr PosixPath.

(** X6. The suffix test of line 81 holds for a name exactly when the name
    is some stem, possibly empty, followed by [.jpg], [.jpeg] or [.png],
    letter for letter. *)
Theorem has_image_suffix_iff fname :
  has_image_suffix fname = true
  <-> exists stem,
        fname = stem +:+ ".jpg" \/ fname = stem +:+ ".jpeg"
        \/ fname = stem +:+ ".png".
Proof.
  unfold has_image_suffix, endswith. simpl existsb.
  rewrite orb_false_r, !orb_true_iff, !endswith1_iff. split.
  - intros [[stem ->]|[[stem ->]|[stem ->]]]; exists stem; tauto.
  - intros [stem [->|[->| ->]]]; [left|right; left|right; right]; by exists stem.
Qed.

(** X7. The key looked up for a path at line 97 is one component of the
    path: it holds no separator and occurs in the path as it stands. *)
Theorem parent_name_component path :
  contains sep (parent_name path) = false
  /\ exists before after, path = before +:+ parent_name path +:+ after.
Proof.
  unfold parent_name. split; [apply basename_sep_free|].
  destruct (dirname_prefix path) as [after Hpath].
  destruct (basename_suffix (dirname path)) as [before Hdir].
  exists before, after. rewrite <- append_assoc, <- Hdir. exact Hpath.
Qed.

Lemma rstrip_length c s : String.length (rstrip c s) <= String.length s.
Proof.
  destruct (rstrip_prefix c s) as [tail Htail].
  rewrite Htail at 2. rewrite length_append. lia.
Qed.

(** X8. The path tested by [isdir] at line 89 splits back into its parts:
    for a name without separator, the basename of
    [os.path.join(data_root, name)] is the name, and when the data root is
    not empty and does not end with a separator the joined path is
    [data_root/name] and its dirname is the data root. *)
Theorem join_then_split data_root name :
  contains sep name = false ->
  basename (join data_root name) = name
  /\ (data_root <> "" -> rstrip sep data_root = data_root ->
      join data_root name = data_root +:+ "/" +:+ name
      /\ dirname (join data_root name) = data_root).
Proof.
  intros Hname. unfold join. rewrite (startswith_sep _ Hname). split.
  - destruct (String.eqb_spec data_root "") as [->|Hne]; simpl.
    { rewrite append_nil_l. by apply basename_absent. }
    destruct (endswith1 "/" data_root) eqn:Hend.
    + apply endswith1_iff in Hend as [stem ->]. rewrite append_assoc.
      by apply basename_last.
    + by apply basename_last.
  - intros Hne Hstrip.
    destruct (String.eqb_spec data_root "") as [?|_]; [done|]. simpl.
    destruct (endswith1 "/" data_root) eqn:Hend.
    { exfalso. apply endswith1_iff in Hend as [stem ->].
      change (stem +:+ "/") with (stem +:+ String sep "") in Hstrip.
      rewrite rstrip_snoc in Hstrip.
      pose proof (rstrip_length sep stem) as Hlen.
      rewrite Hstrip, length_append in Hlen. simpl in Hlen. lia. }
    split; [done|]. by apply dirname_last.
Qed.

(** X9. Separators repeated between a directory and its entry do not
    change the key: for [root/a], any positive number of separators and
    an entry [b], with [a] not empty and [a], [b] free of separators, the
    name looked up at line 97 is [a]. *)
Theorem parent_name_repeated_separators root a b n :
  a <> "" -> contains sep a = false -> contains sep b = false ->
  parent_name (root +:+ "/" +:+ a +:+ repeat sep (S n) +:+ b) = a.
Proof.
  intros Ha Hsa Hsb. unfold parent_name.
  assert (Hkeep : rstrip sep (root +:+ String sep a) = root +:+ String sep a).
  { change (String sep a) with (String sep "" +:+ a). rewrite <- append_assoc.
    rewrite rstrip_append_keep; rewrite (rstrip_fixed _ _ Hsa Ha); done. }
  assert (E : root +:+ "/" +:+ a +:+ repeat sep (S n) +:+ b
              = ((root +:+ String sep a) +:+ repeat sep n) +:+ String sep b).
  { rewrite repeat_snoc, !append_assoc. done. }
  rewrite E, dirname_strip; [|done|].
  - rewrite rstrip_append_repeat, Hkeep. by apply basename_last.
  - rewrite rstrip_append_repeat, Hkeep. by destruct root.
Qed.

End Names.

(** ** Rejected images *)

Section Rejections.

Context {Image Tensor : Type}.
Implicit Types (w : World Image Tensor) (tr : list event) (paths : list string).

Lemma rejected_no_listdir w path root : EvListdir root ∉ rejected_events w path.
Proof.
  unfold rejected_events. intros Hin.
  destruct (create_from_file w path);
    repeat (apply elem_of_cons in Hin as [?|Hin]; [done|]);
    by apply elem_of_nil in Hin.
Qed.

Lemma steps_no_listdir paths root : EvListdir root ∉ flat_map step_events paths.
Proof.
  intros Hin%list_elem_of_In. apply in_flat_map in Hin as (p & _ & Hin).
  by destruct Hin as [?|[?|[]]].
Qed.

(** X10. When the tests on the glob pass and some globbed path cannot be
    decoded or shows no face, [from_folder] raises at the first such
    path: [RuntimeError] when [create_from_file] fails, [AttributeError]
    when the aligner returns [None]. The paths before it have been
    aligned, the paths after it are not touched, and the data root is not
    listed. *)
Theorem from_folder_rejected_image w dirname before path after e :
  let data_root := abspath w dirname in
  let pattern := data_root +:+ "/*/*" in
  glob w pattern = before ++ path :: after ->
  existsb has_image_suffix (glob w pattern) = true ->
  (forall p, p ∈ before -> exists t, align_path w p = Ok t) ->
  align_path w path = Raise e ->
  run (from_folder w dirname)
  = (EvGlob pattern :: EvCreateAligner :: flat_map step_events before
     ++ rejected_events w path,
     Raise e)
  /\ (e = RuntimeError path
      \/ e = AttributeError "'NoneType' object has no attribute 'numpy_view'")
  /\ loaded_paths (run (from_folder w dirname)).1 = before ++ [path]
  /\ (EvListdir data_root ∉ (run (from_folder w dirname)).1).
Proof.
  intros data_root pattern Hsplit Hany Hbefore Hpath.
  destruct (Forall2_align_total w _ Hbefore) as [aligned Hall].
  assert (Hrun : run (from_folder w dirname)
                 = (EvGlob pattern :: EvCreateAligner :: flat_map step_events before
                    ++ rejected_events w path,
                    Raise e)).
  { rewrite from_folder_run. cbv zeta. fold data_root. fold pattern.
    rewrite Hany, Hsplit.
    destruct (Nat.eqb_spec (length (before ++ path :: after)) 0) as [Hlen|_].
    { rewrite length_app in Hlen. simpl in Hlen. lia. }
    simpl negb. cbv iota.
    by rewrite (preprocess_face_dataset_Raise _ _ _ _ _ _ _ Hall Hpath). }
  split; [exact Hrun|]. split.
  { apply align_path_Raise in Hpath as [[_ ->]|(? & _ & _ & ->)]; [by left|by right]. }
  rewrite Hrun. cbn [fst]. split.
  - simpl. by rewrite loaded_paths_app, loaded_paths_steps, loaded_paths_rejected.
  - intros Hin. do 2 (apply elem_of_cons in Hin as [?|Hin]; [done|]).
    apply elem_of_app in Hin as [Hin|Hin].
    + by apply steps_no_listdir in Hin.
    + by apply rejected_no_listdir in Hin.
Qed.

(** X11. [_preprocess_face_dataset] raises exactly when some path of its
    input cannot be decoded or shows no face, with the exception of the
    first such path; the tensors of the paths before it are dropped with
    the exception, and the paths after it are not read. *)
Theorem preprocess_face_dataset_first_rejected w paths e :
  ((exists tr, run (_preprocess_face_dataset w paths) = (tr, Raise e))
   <-> exists before path after,
         paths = before ++ path :: after
         /\ (forall p, p ∈ before -> exists t, align_path w p = Ok t)
         /\ align_path w path = Raise e)
  /\ (forall before path after,
        paths = before ++ path :: after ->
        (forall p, p ∈ before -> exists t, align_path w p = Ok t) ->
        align_path w path = Raise e ->
        run (_preprocess_face_dataset w paths)
        = (EvCreateAligner :: flat_map step_events before ++ rejected_events w path,
           Raise e)
        /\ loaded_paths (run (_preprocess_face_dataset w paths)).1 = before ++ [path]).
Proof.
  assert (Hraise : forall before path after,
    paths = before ++ path :: after ->
    (forall p, p ∈ before -> exists t, align_path w p = Ok t) ->
    align_path w path = Raise e ->
    run (_preprocess_face_dataset w paths)
    = (EvCreateAligner :: flat_map step_events before ++ rejected_events w path,
       Raise e)).
  { intros before path after -> Hbefore Hpath.
    destruct (Forall2_align_total w _ Hbefore) as [aligned Hall].
    unfold run. by rewrite (preprocess_face_dataset_Raise _ _ _ _ _ _ _ Hall Hpath). }
  split.
  - split.
    + intros [tr Hrun].
      destruct (align_all_cases w paths)
        as [[aligned Hall]|(before & path & after & aligned & e' & Hsplit & Hall & Hpath)].
      * unfold run in Hrun. by rewrite (preprocess_face_dataset_Ok _ _ _ _ Hall) in Hrun.
      * exists before, path, after. split; [done|].
        assert (Hbefore : forall p, p ∈ before -> exists t, align_path w p = Ok t).
        { intros p (i & Hi)%list_elem_of_lookup_1.
          destruct (Forall2_lookup_l _ _ _ _ _ Hall Hi) as (t & _ & Ht). by exists t. }
        split; [done|]. unfold run in Hrun. rewrite Hsplit in Hrun.
        rewrite (preprocess_face_dataset_Raise _ _ _ _ _ _ _ Hall Hpath) in Hrun.
        congruence.
    + intros (before & path & after & Hsplit & Hbefore & Hpath).
      eexists. by apply (Hraise before path after).
  - intros before path after Hsplit Hbefore Hpath.
    rewrite (Hraise before path after Hsplit Hbefore Hpath). split; [done|].
    cbn [fst]. simpl.
    by rewrite loaded_paths_app, loaded_paths_steps, loaded_paths_rejected.
Qed.

End Rejections.

(** ** The further properties on the example directories *)

Section MoreWitnesses.

Import Examples.

Ltac in_list H :=
  repeat (apply elem_of_cons in H as [->|H]); [..|by apply elem_of_nil in H].

Lemma from_folder_returns_iff_witness :
  glob styles "/data/*/*" <> []
  /\ existsb has_image_suffix (glob styles "/data/*/*") = true
  /\ (forall path, path ∈ glob styles "/data/*/*" ->
        exists t, align_path styles path = Ok t)
  /\ (forall path, path ∈ glob styles "/data/*/*" ->
        is_subdirectory styles "/data" (parent_name path))
  /\ exists tr ds, run (from_folder styles "/data") = (tr, Ok ds).
Proof.
  assert (H1 : glob styles "/data/*/*" <> []) by done.
  assert (H2 : existsb has_image_suffix (glob styles "/data/*/*") = true)
    by reflexivity.
  assert (H3 : forall path, path ∈ glob styles "/data/*/*" ->
                 exists t, align_path styles path = Ok t)
    by (intros path _; apply styles_aligns).
  exact (conj H1 (conj H2 (conj H3 (conj styles_parents_listed
           (proj2 (from_folder_returns_iff styles "/data")
                  (conj H1 (conj H2 (conj H3 styles_parents_listed)))))))).
Defined.

Lemma from_folder_KeyError_first_missing_witness :
  glob renamed "/data/*/*" = [] ++ "/data/a/1.jpg" :: []
  /\ option_map entries (listdir renamed "/data") = Some ["b"]
  /\ parent_name "/data/a/1.jpg" = "a"
  /\ exists tr, run (from_folder renamed "/data") = (tr, Raise (KeyError "a")).
Proof.
  assert (H1 : glob renamed "/data/*/*" = [] ++ "/data/a/1.jpg" :: [])
    by reflexivity.
  split; [exact H1|]. split; [reflexivity|]. split; [reflexivity|].
  apply (proj1 (from_folder_KeyError_first_missing renamed "/data") "a").
  split; [done|]. split; [reflexivity|]. split; [by eexists|].
  exists (names ["b"] I), [], "/data/a/1.jpg", [].
  split; [reflexivity|]. split; [exact H1|]. split; [|split; [|reflexivity]].
  - intros p Hp. by apply elem_of_nil in Hp.
  - intros [_ Hdir]. vm_compute in Hdir. discriminate.
Defined.

Lemma from_folder_ValueError_messages_witness :
  glob empty_folder "/data/*/*" = []
  /\ (run (from_folder empty_folder "/data")).2
     = Raise (ValueError "Invalid input data directory")
  /\ glob no_image "/data/*/*" <> []
  /\ existsb has_image_suffix (glob no_image "/data/*/*") = false
  /\ (run (from_folder no_image "/data")).2
     = Raise (ValueError "No images found under given directory").
Proof.
  assert (H1 : glob empty_folder "/data/*/*" = []) by reflexivity.
  assert (H2 : glob no_image "/data/*/*" <> []
               /\ existsb has_image_suffix (glob no_image "/data/*/*") = false)
    by (split; [done|reflexivity]).
  split; [exact H1|]. split.
  { exact (proj2 (proj1 (from_folder_ValueError_messages empty_folder "/data")) H1). }
  split; [apply H2|]. split; [apply H2|].
  exact (proj2 (proj2 (from_folder_ValueError_messages no_image "/data")) H2).
Defined.

Lemma returned_dataset_well_formed_witness :
  let ds := mkDataset [(aligned "/data/b/1.jpg", 1%Z); (aligned "/data/a/2.png", 0%Z);
                       (aligned "/data/b/3.JPG", 1%Z)]
                      3 ["a"; "b"] in
  0 < size ds
  /\ size ds = length (dataset ds)
  /\ Forall2 (fun path image => align_path styles path = Ok image)
             (glob styles "/data/*/*") (map fst (dataset ds))
  /\ label_names ds <> []
  /\ Sorted String.le (label_names ds)
  /\ NoDup (label_names ds)
  /\ Forall (fun element =>
               (0 <= element.2 < Z.of_nat (length (label_names ds)))%Z)
            (dataset ds).
Proof. exact (returned_dataset_well_formed styles "/data" _ _ styles_run). Defined.

Lemma labels_follow_directory_names_witness :
  exists image_i image_j label_i label_j,
    align_path styles "/data/b/1.jpg" = Ok image_i
    /\ align_path styles "/data/a/2.png" = Ok image_j
    /\ [(aligned "/data/b/1.jpg", 1%Z); (aligned "/data/a/2.png", 0%Z);
        (aligned "/data/b/3.JPG", 1%Z)] !! 0 = Some (image_i, label_i)
    /\ [(aligned "/data/b/1.jpg", 1%Z); (aligned "/data/a/2.png", 0%Z);
        (aligned "/data/b/3.JPG", 1%Z)] !! 1 = Some (image_j, label_j)
    /\ (label_i ?= label_j)%Z
       = (parent_name "/data/b/1.jpg" ?= parent_name "/data/a/2.png")%string
    /\ (label_i = label_j
        <-> parent_name "/data/b/1.jpg" = parent_name "/data/a/2.png").
Proof.
  exact (labels_follow_directory_names styles "/data" _ _ 0 1
           "/data/b/1.jpg" "/data/a/2.png" styles_run eq_refl eq_refl).
Defined.

Lemma has_image_suffix_iff_witness :
  has_image_suffix "/data/a/photo.jpeg" = true.
Proof.
  apply (proj2 (has_image_suffix_iff "/data/a/photo.jpeg")).
  exists "/data/a/photo". right. left. reflexivity.
Defined.

Lemma join_then_split_witness :
  PyStr.contains PosixPath.sep "a" = false
  /\ "/data" <> ""
  /\ PyStr.rstrip PosixPath.sep "/data" = "/data"
  /\ PosixPath.basename (PosixPath.join "/data" "a") = "a"
  /\ PosixPath.join "/data" "a" = "/data" +:+ "/" +:+ "a"
  /\ PosixPath.dirname (PosixPath.join "/data" "a") = "/data".
Proof.
  assert (H1 : PyStr.contains PosixPath.sep "a" = false) by reflexivity.
  assert (H2 : "/data" <> "") by done.
  assert (H3 : PyStr.rstrip PosixPath.sep "/data" = "/data") by reflexivity.
  destruct (join_then_split "/data" "a" H1) as [Hbase Hdir].
  destruct (Hdir H2 H3) as [Hjoin Hdirname].
  exact (conj H1 (conj H2 (conj H3 (conj Hbase (conj Hjoin Hdirname))))).
Defined.

Lemma parent_name_repeated_separators_witness :
  "a" <> ""
  /\ PyStr.contains PosixPath.sep "a" = false
  /\ PyStr.contains PosixPath.sep "1.jpg" = false
  /\ parent_name ("/data" +:+ "/" +:+ "a" +:+ PyStr.repeat PosixPath.sep 2 +:+ "1.jpg")
     = "a".
Proof.
  assert (H1 : "a" <> "") by done.
  assert (H2 : PyStr.contains PosixPath.sep "a" = false) by reflexivity.
  assert (H3 : PyStr.contains PosixPath.sep "1.jpg" = false) by reflexivity.
  exact (conj H1 (conj H2 (conj H3
           (parent_name_repeated_separators "/data" "a" "1.jpg" 1 H1 H2 H3)))).
Defined.

Lemma from_folder_rejected_image_witness :
  glob no_face "/data/*/*" = ["/data/a/1.jpg"] ++ "/data/a/2.jpg" :: []
  /\ existsb has_image_suffix (glob no_face "/data/*/*") = true
  /\ (forall p, p ∈ ["/data/a/1.jpg"] -> exists t, align_path no_face p = Ok t)
  /\ align_path no_face "/data/a/2.jpg"
     = Raise (AttributeError "'NoneType' object has no attribute 'numpy_view'")
  /\ run (from_folder no_face "/data")
     = ([EvGlob "/data/*/*"; EvCreateAligner;
         EvCreateFromFile "/data/a/1.jpg"; EvAlign "/data/a/1.jpg";
         EvCreateFromFile "/data/a/2.jpg"; EvAlign "/data/a/2.jpg"],
        Raise (AttributeError "'NoneType' object has no attribute 'numpy_view'")).
Proof.
  assert (H1 : glob no_face "/data/*/*" = ["/data/a/1.jpg"] ++ "/data/a/2.jpg" :: [])
    by reflexivity.
  assert (H2 : existsb has_image_suffix (glob no_face "/data/*/*") = true)
    by reflexivity.
  assert (H3 : forall p, p ∈ ["/data/a/1.jpg"] -> exists t, align_path no_face p = Ok t).
  { intros p Hp. in_list Hp. by eexists. }
  assert (H4 : align_path no_face "/data/a/2.jpg"
               = Raise (AttributeError "'NoneType' object has no attribute 'numpy_view'"))
    by reflexivity.
  exact (conj H1 (conj H2 (conj H3 (conj H4
           (proj1 (from_folder_rejected_image no_face "/data" _ _ _ _ H1 H2 H3 H4)))))).
Defined.

Lemma preprocess_face_dataset_first_rejected_witness :
  (forall p, p ∈ ["/data/b/1.jpg"] -> exists t, align_path with_notes p = Ok t)
  /\ align_path with_notes "/data/b/notes.txt" = Raise (RuntimeError "/data/b/notes.txt")
  /\ run (_preprocess_face_dataset with_notes
            ["/data/b/1.jpg"; "/data/b/notes.txt"; "/data/b/1.jpg"])
     = ([EvCreateAligner; EvCreateFromFile "/data/b/1.jpg"; EvAlign "/data/b/1.jpg";
         EvCreateFromFile "/data/b/notes.txt"],
        Raise (RuntimeError "/data/b/notes.txt")).
Proof.
  assert (H1 : forall p, p ∈ ["/data/b/1.jpg"] ->
                 exists t, align_path with_notes p = Ok t).
  { intros p Hp. in_list Hp. by eexists. }
  assert (H2 : align_path with_notes "/data/b/notes.txt"
               = Raise (RuntimeError "/data/b/notes.txt")) by reflexivity.
  exact (conj H1 (conj H2
           (proj1 (proj2 (preprocess_face_dataset_first_rejected with_notes
                     ["/data/b/1.jpg"; "/data/b/notes.txt"; "/data/b/1.jpg"]
                     (RuntimeError "/data/b/notes.txt"))
                    ["/data/b/1.jpg"] "/data/b/notes.txt" ["/data/b/1.jpg"]
                    eq_refl H1 H2)))).
Defined.

End MoreWitnesses.
